(** * Fluid Wall: the Kinect controller

    A shallow embedding of [KinectController] (KinectController.h and
    KinectController.cpp): the per-frame acquisition and remap loop, the
    periodic session reset and the tilt-motor clamp, together with the
    properties of the natural-language specification that concern them.

    The OpenNI sensor SDK, the CLNUI motor driver and OpenCV are outside
    the repository.  The sensor and the motor are modelled as an explicit
    device state that answers every SDK call and records it; OpenCV's
    [Mat] is a record of dimensions and a byte list. *)

From Stdlib Require Import ZArith Bool Lia.
From Stdlib Require Import Floats.SpecFloat.
From stdpp Require Import base option list.

Local Open Scope Z_scope.

(** ** Machine integers *)

(** C's [int] is 32 bits wide; arithmetic that leaves the range is kept
    in range by two's-complement wrap-around. *)
Definition wrap32 (z : Z) : Z := (z + 2 ^ 31) mod 2 ^ 32 - 2 ^ 31.

(** [XnDepthPixel] and [XnLabel] are unsigned 16-bit, [uchar] is 8-bit. *)
Definition u16 (z : Z) : Z := z mod 2 ^ 16.
Definition u8 (z : Z) : Z := z mod 2 ^ 8.

(** ** Single-precision floats

    [float] is IEEE-754 binary32: 24 bits of mantissa, infinities at
    exponent 128, round to nearest even.  Every operation rounds to single
    precision; no intermediate result is kept wider. *)
Module F32.

Definition prec : Z := 24.
Definition emax : Z := 128.

Definition float : Type := spec_float.

(** [(float)z] for an integer [z]. *)
Definition of_int (z : Z) : float := binary_normalize prec emax z 0 false.

Definition mul (a b : float) : float := SFmul prec emax a b.
Definition div (a b : float) : float := SFdiv prec emax a b.
Definition neg (a : float) : float := SFopp a.

(** Conversion of a float to a 32-bit integer, truncating toward zero.
    Values that do not fit (infinities, NaN, magnitudes of 2^31 and
    above) give the "integer indefinite" pattern [-2^31], as the x86
    conversion instruction does. *)
Definition to_int32 (a : float) : Z :=
  match a with
  | S754_zero _ => 0
  | S754_finite s m e =>
      let mag := if 0 <=? e then Z.pos m * 2 ^ e else Z.pos m / 2 ^ (- e) in
      let v := if s then - mag else mag in
      if (- 2 ^ 31 <=? v) && (v <? 2 ^ 31) then v else - 2 ^ 31
  | _ => - 2 ^ 31
  end.

(** Storing a float into a [uchar]: conversion to an integer, of which
    the low eight bits are kept. *)
Definition to_uchar (a : float) : Z := u8 (to_int32 a).

End F32.

(** ** OpenCV matrices *)

(** A single-channel 8-bit [Mat]: [data] is the row-major pixel array. *)
Record Mat : Type := mkMat { rows : Z; cols : Z; data : list Z }.

(** [Mat::zeros(r, c, CV_8UC1)] *)
Definition Mat_zeros (r c : Z) : Mat :=
  {| rows := r; cols := c; data := replicate (Z.to_nat (r * c)) 0 |}.

(** [m.data[ind] = v] *)
Definition Mat_store (m : Mat) (ind : Z) (v : Z) : Mat :=
  {| rows := rows m; cols := cols m; data := <[Z.to_nat ind := v]> (data m) |}.

(** [m.at<uchar>(y, x)] *)
Definition Mat_at (m : Mat) (y x : Z) : Z :=
  default 0 (data m !! Z.to_nat (y * cols m + x)).

(** The rows of a row-major array of [r] rows of [c] pixels. *)
Fixpoint row_chunks (r : nat) (c : nat) (d : list Z) : list (list Z) :=
  match r with
  | O => []
  | S r' => take c d :: row_chunks r' c (drop c d)
  end.

(** [cv::flip(src, dst, flipCode)]: [dst] takes the size of [src];
    a positive [flipCode] flips around the vertical axis (every row is
    reversed), zero flips around the horizontal axis (the order of the
    rows is reversed), a negative one does both. *)
Definition flip (src : Mat) (flipCode : Z) : Mat :=
  let rs := row_chunks (Z.to_nat (rows src)) (Z.to_nat (cols src)) (data src) in
  {| rows := rows src;
     cols := cols src;
     data := if 0 <? flipCode then concat (reverse <$> rs)
             else if flipCode =? 0 then concat (reverse rs)
             else concat (reverse (reverse <$> rs)) |}.

(** ** Constants of the headers *)

Definition XnStatus : Type := Z.

(** Modelled from the spec: OpenNI's [XN_STATUS_OK], [XN_VGA_X_RES] and
    [XN_VGA_Y_RES] are declared by the SDK headers, which are not part of
    the repository; the specification fixes the frame at 640 x 480 and
    the success status is the zero code. *)
Definition XN_STATUS_OK : XnStatus := 0.
Definition XN_VGA_X_RES : Z := 640.
Definition XN_VGA_Y_RES : Z := 480.

Definition COLOR_RANGE : Z := 255.
Definition Y_RES : Z := XN_VGA_Y_RES.
Definition X_RES : Z := XN_VGA_X_RES.

(** ** The device *)

(** One frame as the SDK exposes it: the depth map behind
    [GetDepthMap()] and the label map behind [xnSceneMD.Data()], both
    read through a pointer by index. *)
Record Frame : Type := mkFrame { depthMap : Z -> Z; labelMap : Z -> Z }.

(** [pDepthMap[ind]] and [pLabels[ind]]: a 16-bit unsigned read. *)
Definition pDepthMap (f : Frame) (ind : Z) : Z := u16 (depthMap f ind).
Definition pLabels (f : Frame) (ind : Z) : Z := u16 (labelMap f ind).

(** The calls the controller makes to the SDK and to the motor driver. *)
Inductive DevCall : Type :=
| ContextInit
| DepthGeneratorCreate
| SetMapOutputMode (xres yres fps : Z)
| UserGeneratorCreate
| RegisterUserCallbacks
| GetMetaData
| GetUserPixels
| StartGeneratingAll
| WaitOneUpdateAll
| GetUsers (n : Z)
| ContextShutdown
| GetNUIDeviceSerial
| CreateNUIMotor
| SetNUIMotorPosition (angle : Z)
| DestroyNUIMotor.

Global Instance DevCall_eq_dec : EqDecision DevCall.
Proof. solve_decision. Defined.

(** The sensor and the motor seen from the controller.  [status_of k] is
    the status the SDK gives to the [k]-th call that returns one,
    [frame_of k] the [k]-th frame the sensor delivers; [calls] and
    [frame_no] count how many of each have been consumed; [trace] lists
    the calls made so far, the most recent first. *)
Record Device : Type := mkDevice {
  status_of : nat -> XnStatus;
  frame_of : nat -> Frame;
  calls : nat;
  frame_no : nat;
  trace : list DevCall
}.

(** A call that returns an [XnStatus]. *)
Definition sdk_call (c : DevCall) (d : Device) : XnStatus * Device :=
  (status_of d (calls d),
   {| status_of := status_of d; frame_of := frame_of d;
      calls := S (calls d); frame_no := frame_no d;
      trace := c :: trace d |}).

(** A call that returns nothing the controller reads. *)
Definition sdk_void (c : DevCall) (d : Device) : Device :=
  {| status_of := status_of d; frame_of := frame_of d;
     calls := calls d; frame_no := frame_no d;
     trace := c :: trace d |}.

(** [xnContext.WaitOneUpdateAll]: on success the next frame is exposed. *)
Definition wait_one_update_all (d : Device) : XnStatus * Device :=
  let '(rc, d') := sdk_call WaitOneUpdateAll d in
  (rc,
   if rc =? XN_STATUS_OK
   then {| status_of := status_of d'; frame_of := frame_of d';
           calls := calls d'; frame_no := S (frame_no d');
           trace := trace d' |}
   else d').

(** The frame currently exposed by the sensor. *)
Definition current_frame (d : Device) : Frame := frame_of d (frame_no d).

(** The number of session shutdowns the device has seen. *)
Definition shutdowns (d : Device) : nat :=
  length (filter (fun c => c = ContextShutdown) (trace d)).

(** ** The controller *)

(** The fields of [class KinectController].  The SDK objects
    ([xnContext], the generators, their metadata and [nuiMotor]) are the
    device. *)
Record KinectController : Type := mkKinectController {
  dev : Device;
  xnRetVal : XnStatus;
  maxUsers : Z;
  maxIterate : Z;
  iterations : Z;
  depthThresh : Z;
  colorByDepth : F32.float;
  depthMatrix : Mat;
  usersMatrix : Mat;
  initAngle : Z;
  nuiAngle : Z
}.

Definition set_dev (d : Device) (s : KinectController) : KinectController :=
  mkKinectController d (xnRetVal s) (maxUsers s) (maxIterate s) (iterations s)
    (depthThresh s) (colorByDepth s) (depthMatrix s) (usersMatrix s)
    (initAngle s) (nuiAngle s).

Definition set_xnRetVal (rc : XnStatus) (s : KinectController) : KinectController :=
  mkKinectController (dev s) rc (maxUsers s) (maxIterate s) (iterations s)
    (depthThresh s) (colorByDepth s) (depthMatrix s) (usersMatrix s)
    (initAngle s) (nuiAngle s).

Definition set_iterations (n : Z) (s : KinectController) : KinectController :=
  mkKinectController (dev s) (xnRetVal s) (maxUsers s) (maxIterate s) n
    (depthThresh s) (colorByDepth s) (depthMatrix s) (usersMatrix s)
    (initAngle s) (nuiAngle s).

Definition set_depthThresh (t : Z) (s : KinectController) : KinectController :=
  mkKinectController (dev s) (xnRetVal s) (maxUsers s) (maxIterate s) (iterations s)
    t (colorByDepth s) (depthMatrix s) (usersMatrix s)
    (initAngle s) (nuiAngle s).

Definition set_colorByDepth (c : F32.float) (s : KinectController) : KinectController :=
  mkKinectController (dev s) (xnRetVal s) (maxUsers s) (maxIterate s) (iterations s)
    (depthThresh s) c (depthMatrix s) (usersMatrix s)
    (initAngle s) (nuiAngle s).

Definition set_depthMatrix (m : Mat) (s : KinectController) : KinectController :=
  mkKinectController (dev s) (xnRetVal s) (maxUsers s) (maxIterate s) (iterations s)
    (depthThresh s) (colorByDepth s) m (usersMatrix s)
    (initAngle s) (nuiAngle s).

Definition set_usersMatrix (m : Mat) (s : KinectController) : KinectController :=
  mkKinectController (dev s) (xnRetVal s) (maxUsers s) (maxIterate s) (iterations s)
    (depthThresh s) (colorByDepth s) (depthMatrix s) m
    (initAngle s) (nuiAngle s).

Definition set_nuiAngle (a : Z) (s : KinectController) : KinectController :=
  mkKinectController (dev s) (xnRetVal s) (maxUsers s) (maxIterate s) (iterations s)
    (depthThresh s) (colorByDepth s) (depthMatrix s) (usersMatrix s)
    (initAngle s) a.

(** *** Outcomes

    A member function either returns, or leaves through the exception
    that [new XnUserID[maxUsers]] raises for a negative length, or
    recurses deeper than the fuel the model was given. *)
Inductive outcome (A : Type) : Type :=
| Returns (a : A)
| Throws
| OutOfFuel.
Arguments Returns {A} a.
Arguments Throws {A}.
Arguments OutOfFuel {A}.

Global Instance outcome_ret : MRet outcome := fun A a => Returns a.

Global Instance outcome_bind : MBind outcome := fun A B k m =>
  match m with
  | Returns a => k a
  | Throws => Throws
  | OutOfFuel => OutOfFuel
  end.

(** [CHECK_RC(xnRetVal, what)]: on a status other than [XN_STATUS_OK] the
    enclosing function returns the member [xnRetVal]. *)
Definition check_failed (nRetVal : XnStatus) : bool := negb (nRetVal =? XN_STATUS_OK).

(** *** Motor control *)

Definition clamp_angle (a : Z) : Z :=
  if 15000 <? a then 15000 else if a <? -15000 then -15000 else a.

Definition initMotorControl (s : KinectController) : KinectController :=
  let d := sdk_void GetNUIDeviceSerial (dev s) in
  let d := sdk_void CreateNUIMotor d in
  set_dev (sdk_void (SetNUIMotorPosition (nuiAngle s)) d) s.

Definition stopMotorControl (s : KinectController) : KinectController :=
  set_dev (sdk_void DestroyNUIMotor (dev s)) s.

Definition setMotorAngle (angle : Z) (s : KinectController) : KinectController :=
  let s := set_nuiAngle (wrap32 (nuiAngle s + angle)) s in
  let s := set_nuiAngle (clamp_angle (nuiAngle s)) s in
  set_dev (sdk_void (SetNUIMotorPosition (nuiAngle s)) (dev s)) s.

Definition resetMotorAngle (s : KinectController) : KinectController :=
  let s := set_nuiAngle (initAngle s) s in
  set_dev (sdk_void (SetNUIMotorPosition (nuiAngle s)) (dev s)) s.

(** *** Depth threshold *)

Definition setDepth (depthDelta : Z) (s : KinectController) : KinectController :=
  set_depthThresh (wrap32 (depthThresh s + depthDelta)) s.

(** *** Depth and user tracking *)

(** One checked SDK call: [xnRetVal = call; CHECK_RC(xnRetVal, ...)].
    The result is the state after the assignment and whether the check
    made the function return. *)
Definition checked_call (c : DevCall) (s : KinectController) : bool * KinectController :=
  let '(rc, d) := sdk_call c (dev s) in
  let s := set_xnRetVal rc (set_dev d s) in
  (check_failed (xnRetVal s), s).

Definition initDepthControl (s : KinectController) : XnStatus * KinectController :=
  let s := set_xnRetVal XN_STATUS_OK s in
  let '(failed, s) := checked_call ContextInit s in
  if failed then (xnRetVal s, s) else
  let '(failed, s) := checked_call DepthGeneratorCreate s in
  if failed then (xnRetVal s, s) else
  let '(failed, s) := checked_call (SetMapOutputMode XN_VGA_X_RES XN_VGA_Y_RES 30) s in
  if failed then (xnRetVal s, s) else
  let '(failed, s) := checked_call UserGeneratorCreate s in
  if failed then (xnRetVal s, s) else
  (* the statuses of these two calls are dropped *)
  let s := set_dev (snd (sdk_call RegisterUserCallbacks (dev s))) s in
  let s := set_dev (sdk_void GetMetaData (dev s)) s in
  let s := set_dev (snd (sdk_call GetUserPixels (dev s))) s in
  let '(failed, s) := checked_call StartGeneratingAll s in
  if failed then (xnRetVal s, s) else
  (xnRetVal s, s).

Definition stopDepthControl (s : KinectController) : KinectController :=
  set_dev (sdk_void ContextShutdown (dev s)) s.

Definition kinectCleanupExit (s : KinectController) : KinectController :=
  stopMotorControl (stopDepthControl s).

Definition init (s : KinectController) : XnStatus * KinectController :=
  let s := set_colorByDepth
             (F32.div (F32.of_int COLOR_RANGE) (F32.of_int (depthThresh s))) s in
  let s := set_iterations 0 s in
  let s := set_depthMatrix (Mat_zeros 480 640) s in
  let s := set_usersMatrix (Mat_zeros 480 640) s in
  let '(_, s) := initDepthControl s in
  if check_failed (xnRetVal s) then (xnRetVal s, s) else
  let s := initMotorControl s in
  (xnRetVal s, s).

(** The constructor.  [d] is the device the controller is attached to;
    fields that [init] assigns first are given its values. *)
Definition KinectController_new (userCount iterationCount depthValue motorAngle : Z)
    (d : Device) : KinectController :=
  let a := clamp_angle motorAngle in
  snd (init {| dev := d; xnRetVal := XN_STATUS_OK;
               maxUsers := userCount; maxIterate := iterationCount;
               iterations := 0; depthThresh := depthValue;
               colorByDepth := F32.div (F32.of_int COLOR_RANGE) (F32.of_int depthValue);
               depthMatrix := Mat_zeros 480 640; usersMatrix := Mat_zeros 480 640;
               initAngle := a; nuiAngle := a |}).

(** [for (int i = 0; i < n; i++) body] *)
Definition for_loop {A : Type} (n : Z) (body : Z -> A -> A) (a : A) : A :=
  foldl (fun acc i => body i acc) a (seqZ 0 n).

(** The body of the pixel loop of [update], on the two temporaries
    [toflip_depthMatrix] and [toflip_usersMatrix]. *)
Definition store_pixel (thresh : Z) (scale : F32.float) (f : Frame) (ind : Z)
    (t : Mat * Mat) : Mat * Mat :=
  if pDepthMap f ind <? thresh
  then (Mat_store (fst t) ind
          (F32.to_uchar (F32.neg (F32.mul (F32.of_int (pDepthMap f ind)) scale))),
        Mat_store (snd t) ind (u8 (pLabels f ind)))
  else (Mat_store (fst t) ind 0, Mat_store (snd t) ind 0).

(** The temporaries after the two nested loops. *)
Definition fill_toflip (thresh : Z) (scale : F32.float) (f : Frame) : Mat * Mat :=
  for_loop Y_RES
    (fun y => for_loop X_RES (fun x => store_pixel thresh scale f (y * X_RES + x)))
    (Mat_zeros 480 640, Mat_zeros 480 640).

(** [update] from the wait for a frame to its end. *)
Definition acquire_and_process (s : KinectController)
    : outcome (XnStatus * KinectController) :=
  let '(rc, d) := wait_one_update_all (dev s) in
  let s := set_xnRetVal rc (set_dev d s) in
  if check_failed (xnRetVal s) then Returns (xnRetVal s, s) else
  let f := current_frame (dev s) in
  if maxUsers s <? 0 then Throws else
  (* XnUInt16 nUsers = maxUsers; the status of GetUsers is dropped and the
     check reads the old status *)
  let s := set_dev (snd (sdk_call (GetUsers (u16 (maxUsers s))) (dev s))) s in
  if check_failed (xnRetVal s) then Returns (xnRetVal s, s) else
  let t := fill_toflip (depthThresh s) (colorByDepth s) f in
  let s := set_depthMatrix (flip (fst t) 1) s in
  let s := set_usersMatrix (flip (snd t) 1) s in
  let s := set_iterations (wrap32 (iterations s + 1)) s in
  Returns (xnRetVal s, s).

(** [reset], given the [update] it calls. *)
Definition reset_with
    (upd : KinectController -> outcome (XnStatus * KinectController))
    (s : KinectController) : outcome (XnStatus * KinectController) :=
  let s := kinectCleanupExit s in
  let s := set_iterations 0 s in
  let s := snd (init s) in
  r ← upd s;
  let s := snd r in
  Returns (xnRetVal s, s).

(** [update] calls [reset], which calls [update]: the recursion is
    bounded by [fuel]. *)
Fixpoint update (fuel : nat) (s : KinectController)
    : outcome (XnStatus * KinectController) :=
  match fuel with
  | O => OutOfFuel
  | S fuel' =>
      s ← (if maxIterate s <? iterations s
           then r ← reset_with (update fuel') s; Returns (snd r)
           else Returns s);
      acquire_and_process s
  end.

Definition reset (fuel : nat) (s : KinectController)
    : outcome (XnStatus * KinectController) :=
  reset_with (update fuel) s.

(** *** The destructor and the getters of the header *)

(** [~KinectController()] *)
Definition KinectController_destroy (s : KinectController) : KinectController :=
  kinectCleanupExit s.

(** [getDepthMat()] and [getUsersMat()] *)
Definition getDepthMat (s : KinectController) : Mat := depthMatrix s.
Definition getUsersMat (s : KinectController) : Mat := usersMatrix s.

(** *** Sequences of calls to the public interface *)

Inductive Op : Type :=
| OpUpdate
| OpReset
| OpSetDepth (depthDelta : Z)
| OpSetMotorAngle (angle : Z)
| OpResetMotorAngle.

Definition step (fuel : nat) (op : Op) (s : KinectController) : outcome KinectController :=
  match op with
  | OpUpdate => r ← update fuel s; Returns (snd r)
  | OpReset => r ← reset fuel s; Returns (snd r)
  | OpSetDepth d => Returns (setDepth d s)
  | OpSetMotorAngle a => Returns (setMotorAngle a s)
  | OpResetMotorAngle => Returns (resetMotorAngle s)
  end.

Fixpoint run (fuel : nat) (ops : list Op) (s : KinectController) : outcome KinectController :=
  match ops with
  | [] => Returns s
  | op :: ops' => s' ← step fuel op s; run fuel ops' s'
  end.


(** ** Predicates and sample devices of the statements *)

(** A matrix is well formed when its array has [rows * cols] pixels. *)
Definition Mat_wf (r c : Z) (m : Mat) : Prop :=
  rows m = r /\ cols m = c /\ length (data m) = Z.to_nat (r * c).

(** What the loop body stores at index [ind] of each temporary. *)
Definition depth_pixel (thresh : Z) (scale : F32.float) (f : Frame) (ind : Z) : Z :=
  if pDepthMap f ind <? thresh
  then F32.to_uchar (F32.neg (F32.mul (F32.of_int (pDepthMap f ind)) scale))
  else 0.

Definition users_pixel (thresh : Z) (f : Frame) (ind : Z) : Z :=
  if pDepthMap f ind <? thresh then u8 (pLabels f ind) else 0.

(** The loop invariant: both temporaries keep their size and every index
    below [k] holds its pixel. *)
Definition filled (thresh : Z) (scale : F32.float) (f : Frame) (k : Z)
    (t : Mat * Mat) : Prop :=
  Mat_wf 480 640 (fst t) /\ Mat_wf 480 640 (snd t) /\
  forall ind, 0 <= ind < k ->
    data (fst t) !! Z.to_nat ind = Some (depth_pixel thresh scale f ind) /\
    data (snd t) !! Z.to_nat ind = Some (users_pixel thresh f ind).

(** What no member function changes of the device: the answers it will
    give. *)
Definition same_oracle (d d' : Device) : Prop :=
  status_of d' = status_of d /\ frame_of d' = frame_of d.

(** What [init], [update] and [reset] leave alone. *)
Definition preserved (s s' : KinectController) : Prop :=
  maxUsers s' = maxUsers s /\ maxIterate s' = maxIterate s /\
  depthThresh s' = depthThresh s /\
  initAngle s' = initAngle s /\ nuiAngle s' = nuiAngle s /\
  same_oracle (dev s) (dev s').

(** Both output buffers are 480 x 640. *)
Definition buffers_wf (s : KinectController) : Prop :=
  Mat_wf 480 640 (depthMatrix s) /\ Mat_wf 480 640 (usersMatrix s).

(** A state that differs from [s] at most in the status member and in
    the calls the device has recorded, none of them a shutdown or a wait. *)
Definition sdk_only (s s' : KinectController) : Prop :=
  maxUsers s' = maxUsers s /\ maxIterate s' = maxIterate s /\
  iterations s' = iterations s /\ depthThresh s' = depthThresh s /\
  colorByDepth s' = colorByDepth s /\
  depthMatrix s' = depthMatrix s /\ usersMatrix s' = usersMatrix s /\
  initAngle s' = initAngle s /\ nuiAngle s' = nuiAngle s /\
  same_oracle (dev s) (dev s') /\
  frame_no (dev s') = frame_no (dev s) /\
  shutdowns (dev s') = shutdowns (dev s).

(** The state [init] leaves. *)
Definition initialised (s s' : KinectController) : Prop :=
  preserved s s' /\
  iterations s' = 0 /\
  colorByDepth s' = F32.div (F32.of_int COLOR_RANGE) (F32.of_int (depthThresh s)) /\
  depthMatrix s' = Mat_zeros 480 640 /\
  usersMatrix s' = Mat_zeros 480 640 /\
  frame_no (dev s') = frame_no (dev s) /\
  shutdowns (dev s') = shutdowns (dev s).

(** The state after a cycle that ran to its end. *)
Definition cycle_done (s s' : KinectController) : Prop :=
  preserved s s' /\
  xnRetVal s' = XN_STATUS_OK /\
  iterations s' = wrap32 (iterations s + 1) /\
  colorByDepth s' = colorByDepth s /\
  depthMatrix s'
    = flip (fst (fill_toflip (depthThresh s) (colorByDepth s) (current_frame (dev s')))) 1 /\
  usersMatrix s'
    = flip (snd (fill_toflip (depthThresh s) (colorByDepth s) (current_frame (dev s')))) 1 /\
  frame_no (dev s') = S (frame_no (dev s)) /\
  shutdowns (dev s') = shutdowns (dev s).

(** The state after a cycle whose wait for a frame failed with [rc]. *)
Definition cycle_failed (rc : XnStatus) (s s' : KinectController) : Prop :=
  preserved s s' /\
  xnRetVal s' = rc /\
  iterations s' = iterations s /\
  colorByDepth s' = colorByDepth s /\
  depthMatrix s' = depthMatrix s /\
  usersMatrix s' = usersMatrix s /\
  frame_no (dev s') = frame_no (dev s) /\
  shutdowns (dev s') = shutdowns (dev s).

(** The status the device gives to the next call. *)
Definition next_status (s : KinectController) : XnStatus :=
  status_of (dev s) (calls (dev s)).

(** The scale factor [init] computes from the threshold of [s]. *)
Definition scale_of (s : KinectController) : F32.float :=
  F32.div (F32.of_int COLOR_RANGE) (F32.of_int (depthThresh s)).

(** The state in which [reset] calls [update]. *)
Definition restarted (s : KinectController) : KinectController :=
  snd (init (set_iterations 0 (kinectCleanupExit s))).

(** What holds of every return of [update]. *)
Definition updated (s : KinectController) (rc : XnStatus) (s' : KinectController) : Prop :=
  preserved s s' /\
  (buffers_wf s -> buffers_wf s') /\
  xnRetVal s' = rc /\
  colorByDepth s'
    = (if maxIterate s <? iterations s then scale_of s else colorByDepth s) /\
  (shutdowns (dev s) <= shutdowns (dev s'))%nat /\
  (rc = XN_STATUS_OK ->
   exists s1, cycle_done s1 s' /\ depthThresh s1 = depthThresh s /\
              colorByDepth s1 = colorByDepth s').


(** The tilt angles are in the motor's range and the buffers have their
    size. *)
Definition sound (a : Z) (s : KinectController) : Prop :=
  initAngle s = clamp_angle a /\ -15000 <= nuiAngle s <= 15000 /\ buffers_wf s.

(** What a call returned, if it did. *)
Definition returned {A : Type} (o : outcome A) : option A :=
  match o with
  | Returns a => Some a
  | _ => None
  end.

(** A sensor that accepts every call and shows the same picture in every
    frame: depth [depth] and label [label] at every pixel. *)
Definition steady_device (depth label : Z) : Device :=
  {| status_of := fun _ => XN_STATUS_OK;
     frame_of := fun _ => mkFrame (fun _ => depth) (fun _ => label);
     calls := 0; frame_no := 0; trace := [] |}.

(** A sensor that answers the status call of index [k] (the first has
    index 0) with [rc] and every other one with success. *)
Definition failing_device (k : nat) (rc : XnStatus) : Device :=
  {| status_of := fun n => if (n =? k)%nat then rc else XN_STATUS_OK;
     frame_of := fun _ => mkFrame (fun _ => 0) (fun _ => 0);
     calls := 0; frame_no := 0; trace := [] |}.


(** Every pixel of the frame the sensor exposes whose depth is not below
    the stored threshold has zero in both buffers, at the mirrored
    column. *)
Definition masked (s : KinectController) : Prop :=
  forall x y, 0 <= x < 640 -> 0 <= y < 480 ->
    depthThresh s <= pDepthMap (current_frame (dev s)) (y * 640 + x) ->
    Mat_at (depthMatrix s) y (639 - x) = 0 /\
    Mat_at (usersMatrix s) y (639 - x) = 0.

(** A public call other than [setDepth]. *)
Definition keeps_threshold (op : Op) : Prop :=
  match op with
  | OpSetDepth _ => False
  | _ => True
  end.

(** ** The calls the device has seen *)


(** The status the device gives to the [k]-th status call from now. *)
Definition status_ahead (k : nat) (s : KinectController) : XnStatus :=
  status_of (dev s) (k + calls (dev s))%nat.

(** The calls of a complete [initDepthControl], the most recent first. *)
Definition depth_calls : list DevCall :=
  [StartGeneratingAll; GetUserPixels; GetMetaData; RegisterUserCallbacks;
   UserGeneratorCreate; SetMapOutputMode XN_VGA_X_RES XN_VGA_Y_RES 30;
   DepthGeneratorCreate; ContextInit].

(** How many of its eight calls [initDepthControl] makes: it stops after
    the first checked call that fails. *)
Definition depth_calls_made (s : KinectController) : nat :=
  if check_failed (status_ahead 0 s) then 1
  else if check_failed (status_ahead 1 s) then 2
  else if check_failed (status_ahead 2 s) then 3
  else if check_failed (status_ahead 3 s) then 4
  else 8.

(** The status [initDepthControl] returns: that of the first checked call
    that fails, else that of [StartGeneratingAll], the seventh status. *)
Definition depth_status (s : KinectController) : XnStatus :=
  if check_failed (status_ahead 0 s) then status_ahead 0 s
  else if check_failed (status_ahead 1 s) then status_ahead 1 s
  else if check_failed (status_ahead 2 s) then status_ahead 2 s
  else if check_failed (status_ahead 3 s) then status_ahead 3 s
  else status_ahead 6 s.

(** How many statuses [initDepthControl] consumes. *)
Definition depth_statuses_read (s : KinectController) : nat :=
  if (depth_calls_made s =? 8)%nat then 7 else depth_calls_made s.

(** The calls of [initMotorControl], the most recent first. *)
Definition motor_calls (angle : Z) : list DevCall :=
  [SetNUIMotorPosition angle; CreateNUIMotor; GetNUIDeviceSerial].

(** The calls of [init]: those of [initDepthControl] and, when it
    succeeded, those of [initMotorControl]. *)
Definition init_calls (s : KinectController) : list DevCall :=
  (if check_failed (depth_status s) then [] else motor_calls (nuiAngle s))
  ++ drop (8 - depth_calls_made s) depth_calls.

(** The device of [s'] is that of [s] after the calls [ext] (the most
    recent first), [k] of which returned a status. *)
Definition stepped (k : nat) (ext : list DevCall) (s s' : KinectController) : Prop :=
  trace (dev s') = ext ++ trace (dev s) /\
  calls (dev s') = (k + calls (dev s))%nat /\
  status_of (dev s') = status_of (dev s).

(** How often the call [c] occurs in a trace. *)
Definition calls_of (c : DevCall) (t : list DevCall) : nat :=
  length (filter (fun x => x = c) t).

(** A motor command carries the angle [a]; other calls are free. *)
Definition commands (a : Z) (c : DevCall) : Prop :=
  match c with
  | SetNUIMotorPosition a' => a' = a
  | _ => True
  end.

(** A motor command carries an angle of the motor's range. *)
Definition command_in_range (c : DevCall) : Prop :=
  match c with
  | SetNUIMotorPosition a => -15000 <= a <= 15000
  | _ => True
  end.

(** Whether the motor handle is live after the calls of a trace (the
    most recent first): the last of its creations and destructions is a
    creation. *)
Fixpoint motor_open (t : list DevCall) : bool :=
  match t with
  | [] => false
  | CreateNUIMotor :: _ => true
  | DestroyNUIMotor :: _ => false
  | _ :: t' => motor_open t'
  end.

(** What a member function adds to the trace: every context it
    initialises it has shut down before, no motor is created that was not
    destroyed before, and motor commands carry the angle [a]. *)
Definition session_calls (a : Z) (ext : list DevCall) : Prop :=
  Forall (commands a) ext /\
  calls_of ContextInit ext = calls_of ContextShutdown ext /\
  (calls_of CreateNUIMotor ext <= calls_of DestroyNUIMotor ext)%nat.

(** The calls between the entry of [reset] and its call of [update]. *)
Definition restart_calls (s : KinectController) : list DevCall :=
  init_calls (set_iterations 0 (kinectCleanupExit s))
  ++ [DestroyNUIMotor; ContextShutdown].

(** What a sequence of public calls adds to the trace: motor commands
    within the range, every context initialised after a shutdown, no
    motor created that was not destroyed before. *)
Definition tidy (ext : list DevCall) : Prop :=
  Forall command_in_range ext /\
  calls_of ContextInit ext = calls_of ContextShutdown ext /\
  (calls_of CreateNUIMotor ext <= calls_of DestroyNUIMotor ext)%nat.

(** Every pixel of the array is a byte. *)
Definition bytes (m : Mat) : Prop := Forall (fun v => 0 <= v < 256) (data m).

(** * Properties *)

(** ** Integers and angles *)

Lemma wrap32_range (z : Z) : - 2 ^ 31 <= wrap32 z < 2 ^ 31.
Proof. unfold wrap32. pose proof (Z.mod_pos_bound (z + 2 ^ 31) (2 ^ 32)). lia. Qed.

Lemma wrap32_small (z : Z) : - 2 ^ 31 <= z < 2 ^ 31 -> wrap32 z = z.
Proof. intros H. unfold wrap32. rewrite Z.mod_small; lia. Qed.

Lemma u8_range (z : Z) : 0 <= u8 z < 256.
Proof. unfold u8. pose proof (Z.mod_pos_bound z (2 ^ 8)). lia. Qed.

Lemma u16_range (z : Z) : 0 <= u16 z < 65536.
Proof. unfold u16. pose proof (Z.mod_pos_bound z (2 ^ 16)). lia. Qed.

Lemma pDepthMap_nonneg (f : Frame) (ind : Z) : 0 <= pDepthMap f ind.
Proof. unfold pDepthMap. pose proof (u16_range (depthMap f ind)). lia. Qed.

Lemma clamp_angle_range (a : Z) : -15000 <= clamp_angle a <= 15000.
Proof.
  unfold clamp_angle.
  destruct (15000 <? a) eqn:Hhi; [lia|].
  destruct (a <? -15000) eqn:Hlo; lia.
Qed.

Lemma clamp_angle_id (a : Z) : -15000 <= a <= 15000 -> clamp_angle a = a.
Proof.
  intros H. unfold clamp_angle.
  destruct (15000 <? a) eqn:Hhi; [lia|].
  destruct (a <? -15000) eqn:Hlo; lia.
Qed.

(** ** Loops *)

Lemma for_loop_succ {A : Type} (k : nat) (body : Z -> A -> A) (a : A) :
  for_loop (Z.of_nat (S k)) body a
  = body (Z.of_nat k) (for_loop (Z.of_nat k) body a).
Proof. unfold for_loop. rewrite seqZ_S, foldl_app. reflexivity. Qed.

(** A loop establishes [I n] when its body carries [I i] to [I (i + 1)]. *)
Lemma for_loop_invariant {A : Type} (I : Z -> A -> Prop) (n : Z)
    (body : Z -> A -> A) (a : A) :
  0 <= n ->
  I 0 a ->
  (forall i acc, 0 <= i < n -> I i acc -> I (i + 1) (body i acc)) ->
  I n (for_loop n body a).
Proof.
  intros Hn H0 Hstep.
  rewrite <- (Z2Nat.id n) by lia.
  assert (Hk : (Z.to_nat n <= Z.to_nat n)%nat) by lia.
  revert Hk. generalize (Z.to_nat n) at 1 3 4 as k.
  induction k as [|k IH]; intros Hk.
  - unfold for_loop. simpl. exact H0.
  - rewrite for_loop_succ.
    replace (Z.of_nat (S k)) with (Z.of_nat k + 1) by lia.
    apply Hstep; [lia|]. apply IH. lia.
Qed.

(** ** Matrices *)

Lemma Mat_zeros_wf (r c : Z) : Mat_wf r c (Mat_zeros r c).
Proof. unfold Mat_wf, Mat_zeros. simpl. rewrite length_replicate. auto. Qed.

Lemma Mat_store_wf (r c : Z) (m : Mat) (ind v : Z) :
  Mat_wf r c m -> Mat_wf r c (Mat_store m ind v).
Proof.
  unfold Mat_wf, Mat_store. simpl. rewrite length_insert. auto.
Qed.

Lemma Mat_zeros_at (r c y x : Z) : Mat_at (Mat_zeros r c) y x = 0.
Proof.
  unfold Mat_at, Mat_zeros. simpl.
  destruct (replicate (Z.to_nat (r * c)) 0 !! Z.to_nat (y * c + x)) as [v|] eqn:E.
  - apply lookup_replicate in E. destruct E as [-> _]. reflexivity.
  - reflexivity.
Qed.

Lemma length_concat_row_chunks (r c : nat) (d : list Z) :
  length d = (r * c)%nat ->
  length (concat (reverse <$> row_chunks r c d)) = (r * c)%nat.
Proof.
  revert d. induction r as [|r IH]; intros d Hd; simpl.
  - reflexivity.
  - rewrite length_app, length_reverse, length_take, IH.
    + simpl in Hd. lia.
    + rewrite length_drop. simpl in Hd. lia.
Qed.

(** In the concatenation of the reversed rows, pixel [x] of row [y] is
    pixel [c - 1 - x] of that row of the source. *)
Lemma lookup_concat_reverse_rows (r c : nat) (d : list Z) (y x : nat) :
  length d = (r * c)%nat ->
  (y < r)%nat -> (x < c)%nat ->
  concat (reverse <$> row_chunks r c d) !! (y * c + x)%nat
  = d !! (y * c + (c - 1 - x))%nat.
Proof.
  revert d y. induction r as [|r IH]; intros d y Hd Hy Hx; [lia|].
  simpl in Hd. simpl.
  assert (Hlen : length (take c d) = c) by (rewrite length_take; lia).
  destruct y as [|y]; simpl.
  - rewrite lookup_app_l by (rewrite length_reverse; lia).
    rewrite reverse_lookup by lia.
    rewrite Hlen. rewrite lookup_take_lt by lia.
    f_equal. lia.
  - rewrite lookup_app_r by (rewrite length_reverse; lia).
    rewrite length_reverse, Hlen.
    replace (c + y * c + x - c)%nat with (y * c + x)%nat by lia.
    rewrite IH; [|rewrite length_drop; lia|lia|lia].
    rewrite lookup_drop. f_equal. lia.
Qed.

Lemma flip_wf (r c : Z) (m : Mat) :
  0 <= r -> 0 <= c -> Mat_wf r c m -> Mat_wf r c (flip m 1).
Proof.
  intros Hr Hc (Hrows & Hcols & Hlen).
  unfold Mat_wf, flip. simpl. repeat split; try assumption.
  rewrite Hrows, Hcols. rewrite length_concat_row_chunks; lia.
Qed.

(** [flip] with code 1 is the horizontal mirror. *)
Lemma flip_at (r c : Z) (m : Mat) (y x : Z) :
  Mat_wf r c m ->
  0 <= y < r -> 0 <= x < c ->
  Mat_at (flip m 1) y x = Mat_at m y (c - 1 - x).
Proof.
  intros (Hrows & Hcols & Hlen) Hy Hx.
  unfold Mat_at, flip. simpl. rewrite Hrows, Hcols.
  replace (Z.to_nat (y * c + x))
    with (Z.to_nat y * Z.to_nat c + Z.to_nat x)%nat by nia.
  rewrite lookup_concat_reverse_rows by nia.
  do 2 f_equal. nia.
Qed.

(** ** The pixel loop *)

Lemma store_pixel_eq (thresh : Z) (scale : F32.float) (f : Frame) (ind : Z)
    (t : Mat * Mat) :
  store_pixel thresh scale f ind t
  = (Mat_store (fst t) ind (depth_pixel thresh scale f ind),
     Mat_store (snd t) ind (users_pixel thresh f ind)).
Proof.
  unfold store_pixel, depth_pixel, users_pixel.
  destruct (pDepthMap f ind <? thresh); reflexivity.
Qed.

Lemma store_pixel_filled (thresh : Z) (scale : F32.float) (f : Frame) (k : Z)
    (t : Mat * Mat) :
  0 <= k < 480 * 640 ->
  filled thresh scale f k t ->
  filled thresh scale f (k + 1) (store_pixel thresh scale f k t).
Proof.
  intros Hk (Hd & Hu & Hpix). rewrite store_pixel_eq.
  split; [apply Mat_store_wf, Hd|]. split; [apply Mat_store_wf, Hu|].
  intros ind Hind. simpl.
  destruct Hd as (_ & _ & Hld). destruct Hu as (_ & _ & Hlu).
  destruct (Z.eq_dec ind k) as [->|Hne].
  - rewrite !list_lookup_insert_eq by lia. auto.
  - rewrite !list_lookup_insert_ne by lia. apply Hpix. lia.
Qed.

Lemma fill_toflip_filled (thresh : Z) (scale : F32.float) (f : Frame) :
  filled thresh scale f (480 * 640) (fill_toflip thresh scale f).
Proof.
  unfold fill_toflip.
  change (480 * 640) with (Y_RES * X_RES).
  apply (for_loop_invariant (fun y t => filled thresh scale f (y * X_RES) t)).
  - unfold Y_RES, XN_VGA_Y_RES. lia.
  - split; [apply Mat_zeros_wf|]. split; [apply Mat_zeros_wf|].
    intros ind Hind. lia.
  - intros y t Hy Ht.
    replace ((y + 1) * X_RES) with (y * X_RES + X_RES) by lia.
    apply (for_loop_invariant (fun x t => filled thresh scale f (y * X_RES + x) t)).
    + unfold X_RES, XN_VGA_X_RES. lia.
    + rewrite Z.add_0_r. exact Ht.
    + intros x t' Hx Ht'. cbv beta in *. rewrite Z.add_assoc.
      apply store_pixel_filled; [|exact Ht'].
      unfold X_RES, XN_VGA_X_RES, Y_RES, XN_VGA_Y_RES in *. lia.
Qed.

Lemma fill_toflip_wf (thresh : Z) (scale : F32.float) (f : Frame) :
  Mat_wf 480 640 (fst (fill_toflip thresh scale f)) /\
  Mat_wf 480 640 (snd (fill_toflip thresh scale f)).
Proof.
  destruct (fill_toflip_filled thresh scale f) as (Hd & Hu & _). auto.
Qed.

(** The temporaries hold, at row [y] and column [x], the pixel of index
    [y * 640 + x]. *)
Lemma fill_toflip_at (thresh : Z) (scale : F32.float) (f : Frame) (y x : Z) :
  0 <= y < 480 -> 0 <= x < 640 ->
  Mat_at (fst (fill_toflip thresh scale f)) y x
    = depth_pixel thresh scale f (y * 640 + x) /\
  Mat_at (snd (fill_toflip thresh scale f)) y x
    = users_pixel thresh f (y * 640 + x).
Proof.
  intros Hy Hx.
  destruct (fill_toflip_filled thresh scale f)
    as ((_ & Hcd & _) & (_ & Hcu & _) & Hpix).
  unfold Mat_at. rewrite Hcd, Hcu.
  destruct (Hpix (y * 640 + x)) as [-> ->]; [lia|]. auto.
Qed.

(** The mirrored temporaries, as [update] leaves them in the two output
    buffers. *)
Lemma flip_fill_toflip_at (thresh : Z) (scale : F32.float) (f : Frame) (y x : Z) :
  0 <= y < 480 -> 0 <= x < 640 ->
  Mat_at (flip (fst (fill_toflip thresh scale f)) 1) y (639 - x)
    = depth_pixel thresh scale f (y * 640 + x) /\
  Mat_at (flip (snd (fill_toflip thresh scale f)) 1) y (639 - x)
    = users_pixel thresh f (y * 640 + x).
Proof.
  intros Hy Hx.
  destruct (fill_toflip_wf thresh scale f) as [Hd Hu].
  rewrite (flip_at 480 640) by (auto; lia).
  rewrite (flip_at 480 640) by (auto; lia).
  replace (640 - 1 - (639 - x)) with x by lia.
  apply fill_toflip_at; assumption.
Qed.

(** ** Reduction control

    The buffers are large and the float operations deep: keep them folded. *)
Arguments Mat_zeros : simpl never.
Arguments fill_toflip : simpl never.
Arguments flip : simpl never.
Arguments F32.div : simpl never.
Arguments F32.mul : simpl never.
Arguments F32.of_int : simpl never.
Arguments wrap32 : simpl never.
Arguments clamp_angle : simpl never.
Arguments shutdowns : simpl never.

(** ** The device under the controller's calls *)

Lemma shutdowns_cons_ne (c : DevCall) (t : list DevCall) :
  c <> ContextShutdown ->
  length (filter (fun c => c = ContextShutdown) (c :: t))
  = length (filter (fun c => c = ContextShutdown) t).
Proof.
  intros Hc. rewrite filter_cons.
  destruct (decide (c = ContextShutdown)); [contradiction|reflexivity].
Qed.

Lemma shutdowns_cons_eq (t : list DevCall) :
  length (filter (fun c => c = ContextShutdown) (ContextShutdown :: t))
  = S (length (filter (fun c => c = ContextShutdown) t)).
Proof.
  rewrite filter_cons.
  destruct (decide (ContextShutdown = ContextShutdown)); [reflexivity|contradiction].
Qed.

Ltac count_shutdowns :=
  unfold shutdowns; cbn [trace sdk_void sdk_call snd];
  rewrite ?shutdowns_cons_eq;
  rewrite ?shutdowns_cons_ne by discriminate.

Lemma preserved_refl (s : KinectController) : preserved s s.
Proof. unfold preserved, same_oracle. tauto. Qed.

Lemma preserved_trans (s1 s2 s3 : KinectController) :
  preserved s1 s2 -> preserved s2 s3 -> preserved s1 s3.
Proof.
  unfold preserved, same_oracle.
  intros (?&?&?&?&?&?&?) (?&?&?&?&?&?&?). repeat split; congruence.
Qed.

Lemma sdk_only_refl (s : KinectController) : sdk_only s s.
Proof. unfold sdk_only, same_oracle. tauto. Qed.

Lemma sdk_only_trans (s1 s2 s3 : KinectController) :
  sdk_only s1 s2 -> sdk_only s2 s3 -> sdk_only s1 s3.
Proof.
  unfold sdk_only, same_oracle.
  intros (?&?&?&?&?&?&?&?&?&(?&?)&?&?) (?&?&?&?&?&?&?&?&?&(?&?)&?&?).
  repeat split; congruence.
Qed.

Lemma sdk_only_preserved (s s' : KinectController) : sdk_only s s' -> preserved s s'.
Proof. unfold sdk_only, preserved. tauto. Qed.

Lemma set_xnRetVal_sdk_only (rc : XnStatus) (s : KinectController) :
  sdk_only s (set_xnRetVal rc s).
Proof. unfold sdk_only, same_oracle. simpl. tauto. Qed.

Lemma sdk_void_sdk_only (c : DevCall) (s : KinectController) :
  c <> ContextShutdown -> sdk_only s (set_dev (sdk_void c (dev s)) s).
Proof.
  intros Hc. unfold sdk_only, same_oracle. simpl.
  unfold shutdowns; cbn [trace sdk_void sdk_call snd].
  rewrite shutdowns_cons_ne by assumption. tauto.
Qed.

Lemma sdk_call_sdk_only (c : DevCall) (s : KinectController) :
  c <> ContextShutdown -> sdk_only s (set_dev (snd (sdk_call c (dev s))) s).
Proof.
  intros Hc. unfold sdk_only, same_oracle. simpl.
  unfold shutdowns; cbn [trace sdk_void sdk_call snd].
  rewrite shutdowns_cons_ne by assumption. tauto.
Qed.

Lemma checked_call_sdk_only (c : DevCall) (s : KinectController) :
  c <> ContextShutdown -> sdk_only s (snd (checked_call c s)).
Proof.
  intros Hc. unfold checked_call. simpl.
  eapply sdk_only_trans; [apply (sdk_call_sdk_only c s Hc)|].
  apply set_xnRetVal_sdk_only.
Qed.

Lemma checked_call_status (c : DevCall) (s : KinectController) :
  xnRetVal (snd (checked_call c s)) = status_of (dev s) (calls (dev s)) /\
  fst (checked_call c s) = check_failed (status_of (dev s) (calls (dev s))) /\
  calls (dev (snd (checked_call c s))) = S (calls (dev s)).
Proof. unfold checked_call. simpl. auto. Qed.

Ltac checked_call_step :=
  match goal with
  | |- context [checked_call ?c ?s] =>
      let H := fresh "Hcall" in
      let failed := fresh "failed" in
      let s' := fresh "s" in
      assert (H : sdk_only s (snd (checked_call c s)))
        by (apply checked_call_sdk_only; discriminate);
      destruct (checked_call c s) as [failed s'];
      cbn [fst snd] in H; destruct failed
  end.

Lemma initDepthControl_sdk_only (s : KinectController) :
  sdk_only s (snd (initDepthControl s)).
Proof.
  unfold initDepthControl.
  pose proof (set_xnRetVal_sdk_only XN_STATUS_OK s) as H0.
  generalize dependent (set_xnRetVal XN_STATUS_OK s). intros s0 H0.
  checked_call_step; [exact (sdk_only_trans _ _ _ H0 Hcall)|].
  checked_call_step;
    [eauto using sdk_only_trans|].
  checked_call_step; [eauto using sdk_only_trans|].
  checked_call_step; [eauto using sdk_only_trans|].
  pose proof (sdk_call_sdk_only RegisterUserCallbacks s4 ltac:(discriminate)) as H5.
  generalize dependent (set_dev (sdk_call RegisterUserCallbacks (dev s4)).2 s4).
  intros s5 H5.
  pose proof (sdk_void_sdk_only GetMetaData s5 ltac:(discriminate)) as H6.
  generalize dependent (set_dev (sdk_void GetMetaData (dev s5)) s5).
  intros s6 H6.
  pose proof (sdk_call_sdk_only GetUserPixels s6 ltac:(discriminate)) as H7.
  generalize dependent (set_dev (sdk_call GetUserPixels (dev s6)).2 s6).
  intros s7 H7.
  checked_call_step; cbn [snd]; eauto 10 using sdk_only_trans.
Qed.

Lemma initMotorControl_sdk_only (s : KinectController) :
  sdk_only s (initMotorControl s).
Proof.
  unfold initMotorControl, sdk_only, same_oracle. simpl.
  count_shutdowns. tauto.
Qed.

Lemma sdk_only_initialised (s s1 s2 : KinectController) :
  initialised s s1 -> sdk_only s1 s2 -> initialised s s2.
Proof.
  unfold initialised, preserved, sdk_only, same_oracle.
  intros ((?&?&?&?&?&?&?)&?&?&?&?&?&?) (?&?&?&?&?&?&?&?&?&(?&?)&?&?).
  repeat split; congruence.
Qed.

Lemma init_initialised (s : KinectController) : initialised s (snd (init s)).
Proof.
  unfold init.
  set (s4 := set_usersMatrix _ _).
  assert (H4 : initialised s s4).
  { unfold initialised, preserved, same_oracle. subst s4. simpl. tauto. }
  clearbody s4.
  pose proof (initDepthControl_sdk_only s4) as H5.
  destruct (initDepthControl s4) as [rc s5]. cbn [snd] in H5. cbv beta iota.
  destruct (check_failed (xnRetVal s5)); cbn [snd].
  - eapply sdk_only_initialised; eassumption.
  - eapply sdk_only_initialised; [eassumption|].
    eapply sdk_only_trans; [exact H5|apply initMotorControl_sdk_only].
Qed.

Lemma init_status (s : KinectController) : fst (init s) = xnRetVal (snd (init s)).
Proof.
  unfold init.
  destruct (initDepthControl _) as [rc s5].
  destruct (check_failed (xnRetVal s5)); reflexivity.
Qed.

Lemma kinectCleanupExit_facts (s : KinectController) :
  let s' := kinectCleanupExit s in
  preserved s s' /\ depthMatrix s' = depthMatrix s /\ usersMatrix s' = usersMatrix s /\
  colorByDepth s' = colorByDepth s /\
  frame_no (dev s') = frame_no (dev s) /\
  shutdowns (dev s') = S (shutdowns (dev s)).
Proof.
  unfold kinectCleanupExit, stopMotorControl, stopDepthControl, preserved, same_oracle.
  simpl. count_shutdowns. tauto.
Qed.

(** ** One acquisition and processing cycle *)

Lemma acquire_and_process_failed (s : KinectController) :
  next_status s <> XN_STATUS_OK ->
  exists s', acquire_and_process s = Returns (next_status s, s') /\
             cycle_failed (next_status s) s s'.
Proof.
  destruct s as [[so fo c fn tr] rc mu mi it dt cb dm um ia na].
  unfold next_status, acquire_and_process, wait_one_update_all, sdk_call. cbn.
  intros Hrc. unfold check_failed.
  destruct (so c =? XN_STATUS_OK) eqn:E; [lia|]. cbn.
  eexists. split; [reflexivity|].
  unfold cycle_failed, preserved, same_oracle. cbn.
  count_shutdowns. tauto.
Qed.

Lemma acquire_and_process_done (s : KinectController) :
  next_status s = XN_STATUS_OK -> 0 <= maxUsers s ->
  exists s', acquire_and_process s = Returns (XN_STATUS_OK, s') /\ cycle_done s s'.
Proof.
  destruct s as [[so fo c fn tr] rc mu mi it dt cb dm um ia na].
  unfold next_status, acquire_and_process, wait_one_update_all, sdk_call. cbn.
  intros Hrc Hmax. rewrite Hrc. cbn.
  destruct (mu <? 0) eqn:E; [lia|].
  eexists. split; [reflexivity|].
  unfold cycle_done, preserved, same_oracle, current_frame. cbn.
  count_shutdowns. tauto.
Qed.

Lemma acquire_and_process_throws (s : KinectController) :
  next_status s = XN_STATUS_OK -> maxUsers s < 0 ->
  acquire_and_process s = Throws.
Proof.
  destruct s as [[so fo c fn tr] rc mu mi it dt cb dm um ia na].
  unfold next_status, acquire_and_process, wait_one_update_all, sdk_call. cbn.
  intros Hrc Hmax. rewrite Hrc. cbn.
  destruct (mu <? 0) eqn:E; [reflexivity|lia].
Qed.

(** Every way a cycle can end. *)
Lemma acquire_and_process_cases (s : KinectController) :
  (exists s', acquire_and_process s = Returns (XN_STATUS_OK, s') /\
              next_status s = XN_STATUS_OK /\ 0 <= maxUsers s /\ cycle_done s s') \/
  (exists s', acquire_and_process s = Returns (next_status s, s') /\
              next_status s <> XN_STATUS_OK /\ cycle_failed (next_status s) s s') \/
  (acquire_and_process s = Throws /\ next_status s = XN_STATUS_OK /\ maxUsers s < 0).
Proof.
  destruct (Z.eq_dec (next_status s) XN_STATUS_OK) as [Hrc|Hrc].
  - destruct (Z_lt_le_dec (maxUsers s) 0) as [Hmax|Hmax].
    + right. right. auto using acquire_and_process_throws.
    + left. destruct (acquire_and_process_done s Hrc Hmax) as (s' & ? & ?). eauto.
  - right. left. destruct (acquire_and_process_failed s Hrc) as (s' & ? & ?). eauto.
Qed.

(** ** [reset] and [update] *)

Lemma update_unfold (fuel : nat) (s : KinectController) :
  update (S fuel) s
  = (s1 ← (if maxIterate s <? iterations s
           then r ← reset_with (update fuel) s; Returns (snd r)
           else Returns s);
     acquire_and_process s1).
Proof. reflexivity. Qed.

Lemma update_no_reset (fuel : nat) (s : KinectController) :
  iterations s <= maxIterate s ->
  update (S fuel) s = acquire_and_process s.
Proof.
  intros H. rewrite update_unfold.
  destruct (maxIterate s <? iterations s) eqn:E; [lia|]. reflexivity.
Qed.

Lemma reset_with_unfold
    (upd : KinectController -> outcome (XnStatus * KinectController))
    (s : KinectController) :
  reset_with upd s = (r ← upd (restarted s); Returns (xnRetVal (snd r), snd r)).
Proof. unfold reset_with, restarted. cbv zeta. reflexivity. Qed.

Lemma restarted_facts (s : KinectController) :
  preserved s (restarted s) /\
  iterations (restarted s) = 0 /\
  colorByDepth (restarted s) = scale_of s /\
  depthMatrix (restarted s) = Mat_zeros 480 640 /\
  usersMatrix (restarted s) = Mat_zeros 480 640 /\
  frame_no (dev (restarted s)) = frame_no (dev s) /\
  shutdowns (dev (restarted s)) = S (shutdowns (dev s)).
Proof.
  unfold restarted, scale_of.
  destruct (kinectCleanupExit_facts s) as (Hp & _ & _ & _ & Hfn & Hsd).
  set (s0 := set_iterations 0 (kinectCleanupExit s)).
  assert (H0 : preserved s s0 /\ frame_no (dev s0) = frame_no (dev s) /\
               shutdowns (dev s0) = S (shutdowns (dev s))).
  { subst s0. unfold preserved in *. cbn [maxUsers maxIterate depthThresh initAngle
      nuiAngle dev set_iterations]. tauto. }
  clearbody s0. destruct H0 as (H0 & H0f & H0s).
  destruct (init_initialised s0) as (Hi & ? & ? & ? & ? & ? & ?).
  assert (Hd : depthThresh s0 = depthThresh s) by (destruct H0; tauto).
  repeat split; try congruence.
  all: try (eapply preserved_trans; eassumption).
  all: try (destruct (preserved_trans _ _ _ H0 Hi); tauto).
Qed.

Lemma buffers_wf_zeros (s : KinectController) :
  depthMatrix s = Mat_zeros 480 640 -> usersMatrix s = Mat_zeros 480 640 ->
  buffers_wf s.
Proof. intros Hd Hu. unfold buffers_wf. rewrite Hd, Hu. split; apply Mat_zeros_wf. Qed.

Lemma cycle_done_buffers_wf (s s' : KinectController) :
  cycle_done s s' -> buffers_wf s'.
Proof.
  intros (_ & _ & _ & _ & Hd & Hu & _). unfold buffers_wf. rewrite Hd, Hu.
  split; apply (flip_wf 480 640); try lia; apply fill_toflip_wf.
Qed.

Lemma acquire_and_process_updated (s : KinectController) (rc : XnStatus)
    (s' : KinectController) :
  acquire_and_process s = Returns (rc, s') ->
  preserved s s' /\ (buffers_wf s -> buffers_wf s') /\ xnRetVal s' = rc /\
  colorByDepth s' = colorByDepth s /\
  shutdowns (dev s') = shutdowns (dev s) /\
  (rc = XN_STATUS_OK -> cycle_done s s') /\
  (rc <> XN_STATUS_OK -> cycle_failed rc s s').
Proof.
  intros H.
  destruct (acquire_and_process_cases s)
    as [(s2 & E & Hrc & Hmax & Hdone)|[(s2 & E & Hrc & Hfail)|(E & _)]];
    rewrite E in H; [| |discriminate]; injection H as <- <-.
  - pose proof (cycle_done_buffers_wf _ _ Hdone) as Hwf.
    pose proof Hdone as (Hp & Hx & _ & Hc & _ & _ & _ & Hsd).
    split; [exact Hp|]. split; [auto|]. split; [exact Hx|]. split; [exact Hc|].
    split; [exact Hsd|]. split; [auto|]. intros Hne. contradiction.
  - pose proof Hfail as (Hp & Hx & _ & Hc & Hdm & Hum & _ & Hsd).
    split; [exact Hp|].
    split; [unfold buffers_wf; rewrite Hdm, Hum; tauto|].
    split; [exact Hx|]. split; [exact Hc|]. split; [exact Hsd|].
    split; [intros Hok; contradiction|auto].
Qed.

Lemma update_updated (fuel : nat) :
  forall (s : KinectController) (rc : XnStatus) (s' : KinectController),
  update fuel s = Returns (rc, s') -> updated s rc s'.
Proof.
  induction fuel as [|fuel IH]; intros s rc s' H; [discriminate|].
  rewrite update_unfold in H.
  destruct (maxIterate s <? iterations s) eqn:Hreset.
  - rewrite reset_with_unfold in H.
    destruct (update fuel (restarted s)) as [[rc0 s1]| |] eqn:Hnested;
      try discriminate.
    change (acquire_and_process s1 = Returns (rc, s')) in H.
    destruct (restarted_facts s) as (Hp0 & Hit0 & Hc0 & Hd0 & Hu0 & _ & Hs0).
    destruct (IH _ _ _ Hnested) as (Hp1 & Hwf1 & _ & Hc1 & Hs1 & _).
    destruct (acquire_and_process_updated _ _ _ H)
      as (Hp2 & Hwf2 & Hrc2 & Hc2 & Hs2 & Hdone & _).
    assert (Hscale : colorByDepth s1 = scale_of s).
    { rewrite Hc1. destruct (maxIterate (restarted s) <? iterations (restarted s)).
      - unfold scale_of. destruct Hp0 as (_ & _ & -> & _). reflexivity.
      - exact Hc0. }
    unfold updated. rewrite Hreset.
    split; [eauto using preserved_trans|].
    split; [intros _; apply Hwf2, Hwf1, buffers_wf_zeros; assumption|].
    split; [exact Hrc2|]. split; [congruence|]. split; [lia|].
    intros Hok. exists s1. split; [auto|]. split; [|congruence].
    destruct (preserved_trans _ _ _ Hp0 Hp1) as (_ & _ & -> & _). reflexivity.
  - change (acquire_and_process s = Returns (rc, s')) in H.
    destruct (acquire_and_process_updated _ _ _ H)
      as (Hp2 & Hwf2 & Hrc2 & Hc2 & Hs2 & Hdone & _).
    unfold updated. rewrite Hreset.
    split; [exact Hp2|]. split; [exact Hwf2|]. split; [exact Hrc2|].
    split; [exact Hc2|]. split; [lia|].
    intros Hok. exists s. auto.
Qed.

Lemma reset_unfold (fuel : nat) (s : KinectController) :
  reset fuel s = reset_with (update fuel) s.
Proof. reflexivity. Qed.

(** ** Runs in which the device answers as hoped *)



(** A call of [update] that finds no reset due is one cycle. *)
Lemma update_plain_done (fuel : nat) (s : KinectController) :
  iterations s <= maxIterate s -> next_status s = XN_STATUS_OK -> 0 <= maxUsers s ->
  exists s', update (S fuel) s = Returns (XN_STATUS_OK, s') /\ cycle_done s s'.
Proof.
  intros Hit Hrc Hmax. rewrite update_no_reset by assumption.
  apply acquire_and_process_done; assumption.
Qed.





(** With a non-negative user count and no reset due, or a non-negative
    iteration limit, [update] returns within two levels of recursion. *)
Lemma acquire_and_process_returns (s : KinectController) :
  0 <= maxUsers s ->
  exists rc s', acquire_and_process s = Returns (rc, s') /\ preserved s s'.
Proof.
  intros Hmax.
  destruct (acquire_and_process_cases s)
    as [(s2 & E & _ & _ & Hdone)|[(s2 & E & _ & Hfail)|(_ & _ & Hneg)]]; [| |lia].
  - exists XN_STATUS_OK, s2. split; [exact E|apply Hdone].
  - exists (next_status s), s2. split; [exact E|apply Hfail].
Qed.

Lemma update_returns (fuel : nat) (s : KinectController) :
  0 <= maxUsers s -> iterations s <= maxIterate s \/ 0 <= maxIterate s ->
  exists rc s', update (S (S fuel)) s = Returns (rc, s').
Proof.
  intros Hmax Hcase.
  destruct (Z_le_gt_dec (iterations s) (maxIterate s)) as [Hle|Hgt].
  - rewrite update_no_reset by assumption.
    destruct (acquire_and_process_returns s Hmax) as (rc & s' & E & _). eauto.
  - assert (HM : 0 <= maxIterate s) by lia.
    rewrite update_unfold.
    destruct (maxIterate s <? iterations s) eqn:E; [|lia].
    rewrite reset_with_unfold.
    destruct (restarted_facts s) as (Hp0 & Hit0 & _).
    pose proof Hp0 as (Hu & Hm & _).
    rewrite update_no_reset by lia.
    destruct (acquire_and_process_returns (restarted s)) as (rc1 & s1 & E1 & Hp1);
      [lia|].
    rewrite E1. cbn [mbind outcome_bind snd].
    destruct (acquire_and_process_returns s1) as (rc2 & s2 & E2 & _).
    { destruct Hp1 as (-> & _). lia. }
    eauto.
Qed.

Lemma reset_returns (fuel : nat) (s : KinectController) :
  0 <= maxUsers s -> 0 <= maxIterate s ->
  exists rc s', reset (S fuel) s = Returns (rc, s').
Proof.
  intros Hmax HM. rewrite reset_unfold, reset_with_unfold.
  destruct (restarted_facts s) as (Hp0 & Hit0 & _).
  pose proof Hp0 as (Hu & Hm & _).
  rewrite update_no_reset by lia.
  destruct (acquire_and_process_returns (restarted s)) as (rc1 & s1 & E1 & Hp1);
    [lia|].
  rewrite E1. cbn [mbind outcome_bind snd]. eauto.
Qed.

(** ** The constructor *)

Lemma KinectController_new_facts (u i d a : Z) (dv : Device) :
  let s := KinectController_new u i d a dv in
  maxUsers s = u /\ maxIterate s = i /\ depthThresh s = d /\
  initAngle s = clamp_angle a /\ nuiAngle s = clamp_angle a /\
  same_oracle dv (dev s) /\
  iterations s = 0 /\
  colorByDepth s = F32.div (F32.of_int COLOR_RANGE) (F32.of_int d) /\
  depthMatrix s = Mat_zeros 480 640 /\ usersMatrix s = Mat_zeros 480 640 /\
  frame_no (dev s) = frame_no dv /\
  shutdowns (dev s) = shutdowns dv.
Proof.
  unfold KinectController_new.
  match goal with |- context [init ?s0] => pose proof (init_initialised s0) as H end.
  destruct H as ((?&?&?&?&?&?) & ? & ? & ? & ? & ? & ?).
  cbv zeta. cbn [maxUsers maxIterate depthThresh initAngle nuiAngle dev] in *.
  tauto.
Qed.


(** ** What [update] leaves in the buffers *)

Lemma update_pixels (fuel : nat) (s s' : KinectController) (y x : Z) :
  update fuel s = Returns (XN_STATUS_OK, s') ->
  0 <= y < 480 -> 0 <= x < 640 ->
  Mat_at (depthMatrix s') y (639 - x)
    = depth_pixel (depthThresh s) (colorByDepth s') (current_frame (dev s'))
        (y * 640 + x) /\
  Mat_at (usersMatrix s') y (639 - x)
    = users_pixel (depthThresh s) (current_frame (dev s')) (y * 640 + x).
Proof.
  intros H Hy Hx.
  destruct (update_updated _ _ _ _ H) as (_ & _ & _ & _ & _ & Hdone).
  destruct (Hdone eq_refl) as (s1 & (_ & _ & _ & _ & Hd & Hu & _) & Ht & Hc).
  rewrite Hd, Hu, Ht, Hc. apply flip_fill_toflip_at; assumption.
Qed.

(** The buffers are the mirrors of the temporaries of the pixel loop. *)
Lemma update_buffers (fuel : nat) (s s' : KinectController) :
  update fuel s = Returns (XN_STATUS_OK, s') ->
  let t := fill_toflip (depthThresh s) (colorByDepth s') (current_frame (dev s')) in
  depthMatrix s' = flip (fst t) 1 /\ usersMatrix s' = flip (snd t) 1.
Proof.
  intros H.
  destruct (update_updated _ _ _ _ H) as (_ & _ & _ & _ & _ & Hdone).
  destruct (Hdone eq_refl) as (s1 & (_ & _ & _ & _ & Hd & Hu & _) & Ht & Hc).
  cbv zeta. rewrite Hd, Hu, Ht, Hc. split; reflexivity.
Qed.

(** A 480 x 640 matrix that reads zero everywhere is [Mat::zeros]. *)
Lemma Mat_all_zero (m : Mat) :
  Mat_wf 480 640 m ->
  (forall y x, 0 <= y < 480 -> 0 <= x < 640 -> Mat_at m y x = 0) ->
  m = Mat_zeros 480 640.
Proof.
  destruct m as [r c d]. unfold Mat_wf, Mat_at, Mat_zeros. cbn [rows cols data].
  intros (-> & -> & Hlen) Hzero. f_equal.
  apply list_eq. intros i.
  destruct (decide (i < Z.to_nat (480 * 640))%nat) as [Hi|Hi].
  - rewrite lookup_replicate_2 by assumption.
    destruct (lookup_lt_is_Some_2 d i) as [v Hv]; [lia|].
    rewrite Hv. f_equal.
    specialize (Hzero (Z.of_nat i / 640) (Z.of_nat i mod 640)).
    pose proof (Z.div_mod (Z.of_nat i) 640 ltac:(lia)) as Hdm.
    pose proof (Z.mod_pos_bound (Z.of_nat i) 640 ltac:(lia)) as Hmod.
    replace (Z.to_nat (Z.of_nat i / 640 * 640 + Z.of_nat i mod 640)) with i in Hzero
      by lia.
    rewrite Hv in Hzero. apply Hzero; [|lia].
    split; [apply Z.div_pos; lia|].
    apply Z.div_lt_upper_bound; lia.
  - rewrite (proj2 (lookup_ge_None _ _)) by lia.
    symmetry. apply lookup_ge_None. rewrite length_replicate. lia.
Qed.

(** ** Sequences of public calls *)

Lemma reset_updated (fuel : nat) (s : KinectController) (rc : XnStatus)
    (s' : KinectController) :
  reset fuel s = Returns (rc, s') -> preserved s s' /\ buffers_wf s'.
Proof.
  rewrite reset_unfold, reset_with_unfold. intros H.
  destruct (update fuel (restarted s)) as [[rc1 s1]| |] eqn:E; try discriminate.
  cbn [mbind outcome_bind snd] in H. injection H as _ <-.
  destruct (restarted_facts s) as (Hp0 & _ & _ & Hd0 & Hu0 & _).
  destruct (update_updated _ _ _ _ E) as (Hp1 & Hwf1 & _).
  split; [eauto using preserved_trans|].
  apply Hwf1, buffers_wf_zeros; assumption.
Qed.

Lemma step_sound (fuel : nat) (op : Op) (a : Z) (s s' : KinectController) :
  step fuel op s = Returns s' ->
  sound a s ->
  sound a s' /\ maxUsers s' = maxUsers s /\ maxIterate s' = maxIterate s.
Proof.
  intros H (Hia & Hna & Hwf). destruct op; cbn [step] in H.
  - destruct (update fuel s) as [[rc s1]| |] eqn:E; try discriminate.
    cbn [mbind outcome_bind snd] in H. injection H as <-.
    destruct (update_updated _ _ _ _ E) as ((Hu & Hm & _ & Hi & Hn & _) & Hwf1 & _).
    unfold sound. rewrite Hi, Hn. auto.
  - destruct (reset fuel s) as [[rc s1]| |] eqn:E; try discriminate.
    cbn [mbind outcome_bind snd] in H. injection H as <-.
    destruct (reset_updated _ _ _ _ E) as ((Hu & Hm & _ & Hi & Hn & _) & Hwf1).
    unfold sound. rewrite Hi, Hn. auto.
  - injection H as <-. unfold sound, buffers_wf, setDepth. cbn. auto.
  - injection H as <-. unfold sound, buffers_wf, setMotorAngle. cbn.
    pose proof (clamp_angle_range (wrap32 (nuiAngle s + angle))). auto.
  - injection H as <-. unfold sound, buffers_wf, resetMotorAngle. cbn.
    pose proof (clamp_angle_range a). rewrite Hia. auto.
Qed.

Lemma run_sound (fuel : nat) (a : Z) (ops : list Op) :
  forall s s', run fuel ops s = Returns s' -> sound a s ->
  sound a s' /\ maxUsers s' = maxUsers s /\ maxIterate s' = maxIterate s.
Proof.
  induction ops as [|op ops IH]; intros s s' H Hs; cbn [run] in H.
  - injection H as <-. auto.
  - destruct (step fuel op s) as [s1| |] eqn:E; try discriminate.
    cbn [mbind outcome_bind] in H.
    destruct (step_sound _ _ _ _ _ E Hs) as (Hs1 & Hu1 & Hm1).
    destruct (IH _ _ H Hs1) as (Hs' & Hu' & Hm'). split; [exact Hs'|]. lia.
Qed.

Lemma KinectController_new_sound (u i d a : Z) (dv : Device) :
  sound a (KinectController_new u i d a dv).
Proof.
  destruct (KinectController_new_facts u i d a dv)
    as (_ & _ & _ & Hi & Hn & _ & _ & _ & Hd & Hu & _).
  unfold sound. rewrite Hn. pose proof (clamp_angle_range a).
  split; [exact Hi|]. split; [lia|]. apply buffers_wf_zeros; assumption.
Qed.

Lemma step_returns (fuel : nat) (op : Op) (s : KinectController) :
  0 <= maxUsers s -> 0 <= maxIterate s ->
  exists s', step (S (S fuel)) op s = Returns s'.
Proof.
  intros Hu Hm. destruct op; cbn [step]; eauto.
  - destruct (update_returns fuel s) as (rc & s' & E); [lia|auto|].
    rewrite E. cbn [mbind outcome_bind snd]. eauto.
  - destruct (reset_returns (S fuel) s) as (rc & s' & E); [lia|lia|].
    rewrite E. cbn [mbind outcome_bind snd]. eauto.
Qed.

Lemma run_returns (fuel : nat) (a : Z) (ops : list Op) :
  forall s, 0 <= maxUsers s -> 0 <= maxIterate s -> sound a s ->
  exists s', run (S (S fuel)) ops s = Returns s'.
Proof.
  induction ops as [|op ops IH]; intros s Hu Hm Hs; cbn [run]; [eauto|].
  destruct (step_returns fuel op s Hu Hm) as (s1 & E).
  rewrite E. cbn [mbind outcome_bind].
  destruct (step_sound _ _ _ _ _ E Hs) as (Hs1 & Hu1 & Hm1).
  apply IH; [lia|lia|exact Hs1].
Qed.


(** One plain cycle and the members it leaves. *)
Lemma update_once (fuel : nat) (s : KinectController) :
  iterations s <= maxIterate s -> next_status s = XN_STATUS_OK -> 0 <= maxUsers s ->
  exists s', update (S fuel) s = Returns (XN_STATUS_OK, s') /\
             depthThresh s' = depthThresh s /\
             colorByDepth s' = colorByDepth s /\
             frame_of (dev s') = frame_of (dev s) /\
             iterations s' = wrap32 (iterations s + 1).
Proof.
  intros Hit Hrc Hmax.
  destruct (update_plain_done fuel s Hit Hrc Hmax) as (s' & E & Hdone).
  destruct Hdone as ((_ & _ & Ht & _ & _ & _ & Hf) & _ & Hi & Hc & _).
  exists s'. auto.
Qed.

(** ** C1 *)

(** C1: after every processed frame (a call of [update] that returns
    [XN_STATUS_OK]), for every pixel [(x, y)] of the 640 x 480 frame with
    index [idx = y * 640 + x]: when [rawDepth[idx] < depthThresh] (strictly)
    the depth buffer at row [y], column [639 - x] is the 8-bit narrowing of
    [-(rawDepth[idx] * colorScale)] and the users buffer there is the raw
    label narrowed to 8 bits; otherwise both are zero there.  [colorScale]
    is the cached member, which only [init] assigns, as [255 / depthThresh].
    The buffers are the horizontal mirror of the temporaries:
    [output[y][x] = preFlip[y][W - 1 - x]]. *)
Theorem update_output_pixels (fuel : nat) (s s' : KinectController) (x y : Z) :
  update fuel s = Returns (XN_STATUS_OK, s') ->
  0 <= x < 640 -> 0 <= y < 480 ->
  let rawDepth := pDepthMap (current_frame (dev s')) in
  let rawLabel := pLabels (current_frame (dev s')) in
  let idx := y * 640 + x in
  let colorScale := colorByDepth s' in
  (depthThresh s' = depthThresh s /\
   colorScale = if maxIterate s <? iterations s
                then F32.div (F32.of_int 255) (F32.of_int (depthThresh s))
                else colorByDepth s) /\
  (if rawDepth idx <? depthThresh s'
   then Mat_at (depthMatrix s') y (639 - x)
          = F32.to_uchar (F32.neg (F32.mul (F32.of_int (rawDepth idx)) colorScale)) /\
        Mat_at (usersMatrix s') y (639 - x) = u8 (rawLabel idx)
   else Mat_at (depthMatrix s') y (639 - x) = 0 /\
        Mat_at (usersMatrix s') y (639 - x) = 0) /\
  (let preFlip := fill_toflip (depthThresh s') colorScale (current_frame (dev s')) in
   Mat_at (depthMatrix s') y x = Mat_at (fst preFlip) y (640 - 1 - x) /\
   Mat_at (usersMatrix s') y x = Mat_at (snd preFlip) y (640 - 1 - x)).
Proof.
  intros H Hx Hy. cbv zeta.
  destruct (update_updated _ _ _ _ H) as ((_ & _ & Ht & _) & _ & _ & Hc & _).
  destruct (update_pixels _ _ _ y x H Hy Hx) as [Hd Hu].
  destruct (update_buffers _ _ _ H) as [Hbd Hbu]. cbv zeta in Hbd, Hbu.
  rewrite Ht. split; [split; [reflexivity|exact Hc]|]. split.
  - rewrite Hd, Hu. unfold depth_pixel, users_pixel.
    destruct (pDepthMap (current_frame (dev s')) (y * 640 + x) <? depthThresh s);
      split; reflexivity.
  - rewrite Hbd, Hbu.
    destruct (fill_toflip_wf (depthThresh s) (colorByDepth s') (current_frame (dev s')))
      as [Hwd Hwu].
    split; apply (flip_at 480 640); assumption.
Qed.

(** C1, on a sensor that shows the same depth and label 2 everywhere,
    with the default threshold 6000.  At depth 3000 the scaled depth is
    127.5, so the mirrored pixel holds 256 - 127 = 129, and label 2; at
    depth 6000, the threshold itself, both buffers hold 0 there. *)
Lemma update_output_pixels_witness :
  (exists s',
     update 1 (KinectController_new 6 10000 6000 10000 (steady_device 3000 2))
       = Returns (XN_STATUS_OK, s') /\
     Mat_at (depthMatrix s') 0 639 = 129 /\ Mat_at (usersMatrix s') 0 639 = 2) /\
  (exists s',
     update 1 (KinectController_new 6 10000 6000 10000 (steady_device 6000 2))
       = Returns (XN_STATUS_OK, s') /\
     Mat_at (depthMatrix s') 0 639 = 0 /\ Mat_at (usersMatrix s') 0 639 = 0).
Proof.
  split.
  - destruct (update_once 0 (KinectController_new 6 10000 6000 10000 (steady_device 3000 2)))
      as (s' & E & Ht & Hc & Hf & _).
    + apply Z.leb_le. vm_compute. reflexivity.
    + vm_compute. reflexivity.
    + apply Z.leb_le. vm_compute. reflexivity.
    + exists s'. split; [exact E|].
      pose proof (update_output_pixels 1 _ s' 0 0 E ltac:(lia) ltac:(lia)) as (_ & Hpix & _).
      cbv zeta in Hpix. unfold current_frame in Hpix. rewrite Hf, Ht, Hc in Hpix.
      replace (depthThresh _) with 6000 in Hpix by (vm_compute; reflexivity).
      replace (colorByDepth _) with (F32.div (F32.of_int 255) (F32.of_int 6000)) in Hpix
        by (vm_compute; reflexivity).
      replace (frame_of _ _) with (mkFrame (fun _ => 3000) (fun _ => 2)) in Hpix
        by reflexivity.
      exact Hpix.
  - destruct (update_once 0 (KinectController_new 6 10000 6000 10000 (steady_device 6000 2)))
      as (s' & E & Ht & Hc & Hf & _).
    + apply Z.leb_le. vm_compute. reflexivity.
    + vm_compute. reflexivity.
    + apply Z.leb_le. vm_compute. reflexivity.
    + exists s'. split; [exact E|].
      pose proof (update_output_pixels 1 _ s' 0 0 E ltac:(lia) ltac:(lia)) as (_ & Hpix & _).
      cbv zeta in Hpix. unfold current_frame in Hpix. rewrite Hf, Ht in Hpix.
      replace (depthThresh _) with 6000 in Hpix by (vm_compute; reflexivity).
      replace (frame_of _ _) with (mkFrame (fun _ => 6000) (fun _ => 2)) in Hpix
        by reflexivity.
      exact Hpix.
Defined.

(** ** C2 *)












(** ** C3 and C7: the tilt motor *)

Lemma setMotorAngle_sound (a delta : Z) (s : KinectController) :
  sound a s -> sound a (setMotorAngle delta s).
Proof.
  intros Hs.
  destruct (step_sound 0 (OpSetMotorAngle delta) a s (setMotorAngle delta s) eq_refl Hs)
    as (H & _).
  exact H.
Qed.

Lemma setMotorAngles_sound (a : Z) (deltas : list Z) :
  forall s, sound a s ->
  sound a (foldl (fun s delta => setMotorAngle delta s) s deltas).
Proof.
  induction deltas as [|delta deltas IH]; intros s Hs; cbn [foldl].
  - exact Hs.
  - apply IH, setMotorAngle_sound, Hs.
Qed.

(** C3: the stored tilt angle is always within [-15000, 15000].  The
    angle recorded at construction is clamped (20000 becomes 15000); after
    any sequence of [setMotorAngle] calls the current angle is in range;
    and so it is after any sequence of calls to the public interface. *)
Theorem tilt_angle_clamped :
  (forall (u i d : Z) (dv : Device),
     initAngle (KinectController_new u i d 20000 dv) = 15000 /\
     nuiAngle (KinectController_new u i d 20000 dv) = 15000) /\
  (forall (u i d a : Z) (dv : Device),
     -15000 <= initAngle (KinectController_new u i d a dv) <= 15000) /\
  (forall (u i d a : Z) (dv : Device) (deltas : list Z),
     -15000 <= nuiAngle (foldl (fun s delta => setMotorAngle delta s)
                           (KinectController_new u i d a dv) deltas) <= 15000) /\
  (forall (u i d a : Z) (dv : Device) (fuel : nat) (ops : list Op),
     match run fuel ops (KinectController_new u i d a dv) with
     | Returns s => -15000 <= nuiAngle s <= 15000 /\ -15000 <= initAngle s <= 15000
     | _ => True
     end).
Proof.
  split; [|split; [|split]].
  - intros u i d dv.
    destruct (KinectController_new_facts u i d 20000 dv) as (_ & _ & _ & -> & -> & _).
    split; reflexivity.
  - intros u i d a dv.
    destruct (KinectController_new_facts u i d a dv) as (_ & _ & _ & -> & _).
    apply clamp_angle_range.
  - intros u i d a dv deltas.
    destruct (setMotorAngles_sound a deltas _ (KinectController_new_sound u i d a dv))
      as (_ & H & _).
    exact H.
  - intros u i d a dv fuel ops.
    destruct (run fuel ops (KinectController_new u i d a dv)) as [s| |] eqn:E; [|exact I..].
    destruct (run_sound _ a _ _ _ E (KinectController_new_sound u i d a dv))
      as ((Hi & Hn & _) & _).
    split; [exact Hn|]. rewrite Hi. apply clamp_angle_range.
Qed.

(** C7: [resetMotorAngle] stores, and sends to the motor, exactly the
    clamped angle recorded at construction, whatever [setMotorAngle] calls
    (or other calls to the public interface) came in between. *)
Theorem resetMotorAngle_restores :
  (forall (u i d a : Z) (dv : Device) (deltas : list Z),
     let s := foldl (fun s delta => setMotorAngle delta s)
                (KinectController_new u i d a dv) deltas in
     nuiAngle (resetMotorAngle s) = clamp_angle a /\
     nuiAngle (resetMotorAngle s) = initAngle (KinectController_new u i d a dv) /\
     head (trace (dev (resetMotorAngle s))) = Some (SetNUIMotorPosition (clamp_angle a))) /\
  (forall (u i d a : Z) (dv : Device) (fuel : nat) (ops : list Op),
     match run fuel ops (KinectController_new u i d a dv) with
     | Returns s => nuiAngle (resetMotorAngle s) = clamp_angle a
     | _ => True
     end).
Proof.
  split.
  - intros u i d a dv deltas s.
    destruct (setMotorAngles_sound a deltas _ (KinectController_new_sound u i d a dv))
      as (Hi & _). fold s in Hi.
    destruct (KinectController_new_facts u i d a dv) as (_ & _ & _ & -> & _).
    unfold resetMotorAngle. cbn. rewrite Hi. auto.
  - intros u i d a dv fuel ops.
    destruct (run fuel ops (KinectController_new u i d a dv)) as [s| |] eqn:E; [|exact I..].
    destruct (run_sound _ a _ _ _ E (KinectController_new_sound u i d a dv))
      as ((Hi & _) & _).
    unfold resetMotorAngle. cbn. exact Hi.
Qed.

(** ** C4 *)

(** C4 as the code has it: after every processed frame, a pixel whose raw
    depth is not below the threshold leaves zero in both buffers at the
    mirrored coordinate; a pixel below the threshold leaves there the
    narrowed label and the narrowed scaled depth, each of which is
    non-zero exactly when that value is: label 0 (no user) and depths
    whose scaled value narrows to 0 leave zero. *)
Theorem mask_at_mirror (fuel : nat) (s s' : KinectController) (x y : Z) :
  update fuel s = Returns (XN_STATUS_OK, s') ->
  0 <= x < 640 -> 0 <= y < 480 ->
  let raw := pDepthMap (current_frame (dev s')) (y * 640 + x) in
  let label := pLabels (current_frame (dev s')) (y * 640 + x) in
  (depthThresh s' <= raw ->
     Mat_at (depthMatrix s') y (639 - x) = 0 /\
     Mat_at (usersMatrix s') y (639 - x) = 0) /\
  (raw < depthThresh s' ->
     (Mat_at (usersMatrix s') y (639 - x) <> 0 <-> u8 label <> 0) /\
     (Mat_at (depthMatrix s') y (639 - x) <> 0 <->
        F32.to_uchar (F32.neg (F32.mul (F32.of_int raw) (colorByDepth s'))) <> 0)).
Proof.
  intros H Hx Hy. cbv zeta.
  destruct (update_updated _ _ _ _ H) as ((_ & _ & Ht & _) & _).
  destruct (update_pixels _ _ _ y x H Hy Hx) as [Hd Hu].
  rewrite Hd, Hu, Ht. unfold depth_pixel, users_pixel.
  destruct (pDepthMap (current_frame (dev s')) (y * 640 + x) <? depthThresh s) eqn:E.
  - split; [lia|]. intros _. split; reflexivity.
  - split; [auto|]. lia.
Qed.

(** C4 on a concrete frame: depth 3000 under threshold 6000
    leaves 129 and label 2 at the mirrored pixel, both non-zero. *)
Lemma mask_at_mirror_witness :
  exists s',
    update 1 (KinectController_new 6 10000 6000 10000 (steady_device 3000 2))
      = Returns (XN_STATUS_OK, s') /\
    Mat_at (usersMatrix s') 0 (639 - 0) <> 0 /\
    Mat_at (depthMatrix s') 0 (639 - 0) <> 0.
Proof.
  destruct (update_once 0 (KinectController_new 6 10000 6000 10000 (steady_device 3000 2)))
    as (s' & E & Ht & Hc & Hf & _).
  - apply Z.leb_le. vm_compute. reflexivity.
  - vm_compute. reflexivity.
  - apply Z.leb_le. vm_compute. reflexivity.
  - exists s'. split; [exact E|].
    pose proof (mask_at_mirror 1 _ s' 0 0 E ltac:(lia) ltac:(lia)) as (_ & Hin).
    cbv zeta in Hin. unfold current_frame in Hin. rewrite Hf, Ht, Hc in Hin.
    replace (depthThresh _) with 6000 in Hin by (vm_compute; reflexivity).
    replace (colorByDepth _) with (F32.div (F32.of_int 255) (F32.of_int 6000)) in Hin
      by (vm_compute; reflexivity).
    replace (frame_of _ _) with (mkFrame (fun _ => 3000) (fun _ => 2)) in Hin
      by reflexivity.
    destruct Hin as [Hu Hd]; [vm_compute; reflexivity|].
    split; [apply Hu|apply Hd]; vm_compute; discriminate.
Defined.

(** The claim as written fails on a pixel inside the threshold that no
    user occupies and that is close to the sensor: raw depth 10 (below the
    threshold 6000) with label 0 leaves zero in both buffers at the
    mirrored coordinate. *)
Lemma mask_at_mirror_counterexample :
  exists s',
    update 1 (KinectController_new 6 10000 6000 10000 (steady_device 10 0))
      = Returns (XN_STATUS_OK, s') /\
    pDepthMap (current_frame (dev s')) (0 * 640 + 0) < depthThresh s' /\
    Mat_at (depthMatrix s') 0 (639 - 0) = 0 /\
    Mat_at (usersMatrix s') 0 (639 - 0) = 0.
Proof.
  destruct (update_once 0 (KinectController_new 6 10000 6000 10000 (steady_device 10 0)))
    as (s' & E & Ht & Hc & Hf & _).
  - apply Z.leb_le. vm_compute. reflexivity.
  - vm_compute. reflexivity.
  - apply Z.leb_le. vm_compute. reflexivity.
  - exists s'. split; [exact E|].
    destruct (update_pixels 1 _ s' 0 0 E ltac:(lia) ltac:(lia)) as [Hd Hu].
    rewrite Hd, Hu.
    unfold current_frame. rewrite Hf, Ht, Hc.
    replace (depthThresh _) with 6000 by (vm_compute; reflexivity).
    replace (colorByDepth _) with (F32.div (F32.of_int 255) (F32.of_int 6000))
      by (vm_compute; reflexivity).
    replace (frame_of _ _) with (mkFrame (fun _ => 10) (fun _ => 0)) by reflexivity.
    vm_compute. split; [reflexivity|]. split; reflexivity.
Qed.

(** ** C5 *)

Lemma Returns_pair_inj {A B : Type} (a a' : A) (b b' : B) :
  Returns (a, b) = Returns (a', b') -> a = a' /\ b = b'.
Proof. intros H. injection H as -> ->. auto. Qed.

Lemma masked_zeros (s : KinectController) :
  depthMatrix s = Mat_zeros 480 640 -> usersMatrix s = Mat_zeros 480 640 -> masked s.
Proof.
  intros Hd Hu x y _ _ _. rewrite Hd, Hu. split; apply Mat_zeros_at.
Qed.

Lemma cycle_done_masked (s s' : KinectController) : cycle_done s s' -> masked s'.
Proof.
  intros ((_ & _ & Ht & _) & _ & _ & _ & Hd & Hu & _) x y Hx Hy Hout.
  destruct (flip_fill_toflip_at (depthThresh s) (colorByDepth s)
              (current_frame (dev s')) y x Hy Hx) as [Hd' Hu'].
  rewrite Hd, Hu, Hd', Hu'. unfold depth_pixel, users_pixel.
  destruct (pDepthMap (current_frame (dev s')) (y * 640 + x) <? depthThresh s) eqn:E;
    [lia|]. split; reflexivity.
Qed.

Lemma cycle_failed_masked (rc : XnStatus) (s s' : KinectController) :
  cycle_failed rc s s' -> masked s -> masked s'.
Proof.
  intros ((_ & _ & Ht & _ & _ & _ & Hf) & _ & _ & _ & Hd & Hu & Hn & _) Hm x y Hx Hy Hout.
  unfold current_frame in Hout. rewrite Hd, Hu. rewrite Ht, Hf, Hn in Hout.
  apply Hm; assumption.
Qed.

Lemma acquire_and_process_masked (s : KinectController) (rc : XnStatus)
    (s' : KinectController) :
  acquire_and_process s = Returns (rc, s') -> masked s -> masked s'.
Proof.
  intros H Hm.
  destruct (acquire_and_process_updated _ _ _ H) as (_ & _ & _ & _ & _ & Hdone & Hfail).
  destruct (Z.eq_dec rc XN_STATUS_OK) as [Hrc|Hrc].
  - apply (cycle_done_masked s), Hdone, Hrc.
  - apply (cycle_failed_masked rc s); [apply Hfail, Hrc|exact Hm].
Qed.

Lemma restarted_masked (s : KinectController) : masked (restarted s).
Proof.
  destruct (restarted_facts s) as (_ & _ & _ & Hd0 & Hu0 & _).
  apply masked_zeros; assumption.
Qed.

Lemma update_masked (fuel : nat) :
  forall (s : KinectController) (rc : XnStatus) (s' : KinectController),
  update fuel s = Returns (rc, s') -> masked s -> masked s'.
Proof.
  induction fuel as [|fuel IH]; intros s rc s' H Hm; [discriminate|].
  rewrite update_unfold in H.
  destruct (maxIterate s <? iterations s) eqn:Hreset.
  - rewrite reset_with_unfold in H.
    destruct (update fuel (restarted s)) as [[rc0 s1]| |] eqn:Hnested;
      try discriminate.
    change (acquire_and_process s1 = Returns (rc, s')) in H.
    apply (acquire_and_process_masked _ _ _ H), (IH _ _ _ Hnested), restarted_masked.
  - change (acquire_and_process s = Returns (rc, s')) in H.
    apply (acquire_and_process_masked _ _ _ H), Hm.
Qed.

Lemma reset_masked (fuel : nat) (s : KinectController) (rc : XnStatus)
    (s' : KinectController) :
  reset fuel s = Returns (rc, s') -> masked s'.
Proof.
  rewrite reset_unfold, reset_with_unfold. intros H.
  destruct (update fuel (restarted s)) as [[rc1 s1]| |] eqn:E; try discriminate.
  cbn [mbind outcome_bind snd] in H. apply Returns_pair_inj in H. destruct H as [_ <-].
  apply (update_masked _ _ _ _ E), restarted_masked.
Qed.

Lemma step_masked (fuel : nat) (op : Op) (s s' : KinectController) :
  step fuel op s = Returns s' -> keeps_threshold op -> masked s -> masked s'.
Proof.
  intros H Hop Hm. destruct op; cbn [step] in H.
  - destruct (update fuel s) as [[rc s1]| |] eqn:E; try discriminate.
    cbn [mbind outcome_bind snd] in H. injection H as <-.
    exact (update_masked _ _ _ _ E Hm).
  - destruct (reset fuel s) as [[rc s1]| |] eqn:E; try discriminate.
    cbn [mbind outcome_bind snd] in H. injection H as <-.
    exact (reset_masked _ _ _ _ E).
  - destruct Hop.
  - injection H as <-. exact Hm.
  - injection H as <-. exact Hm.
Qed.

Lemma run_masked (fuel : nat) (ops : list Op) :
  forall s s', run fuel ops s = Returns s' ->
  Forall keeps_threshold ops -> masked s -> masked s'.
Proof.
  induction ops as [|op ops IH]; intros s s' H Hops Hm; cbn [run] in H.
  - injection H as <-. exact Hm.
  - destruct (step fuel op s) as [s1| |] eqn:E; try discriminate.
    cbn [mbind outcome_bind] in H.
    apply Forall_cons in Hops. destruct Hops as [Hop Hops].
    exact (IH _ _ H Hops (step_masked _ _ _ _ E Hop Hm)).
Qed.

(** C5 as the code has it: from construction on, through any sequence
    of [update], [reset], [setDepth], [setMotorAngle] and
    [resetMotorAngle], both output buffers are 480 x 640 (with an array of
    480 * 640 pixels).  That every pixel of the current frame whose raw
    depth is outside the stored threshold (not below it) has zero in both
    buffers at the same, mirrored, coordinate holds after construction and
    after any sequence of calls without [setDepth], after every [update]
    that returns [XN_STATUS_OK] and after every [reset] that returns,
    whatever came before, and from any state in which it holds it survives
    every further sequence of calls without [setDepth].  With a
    non-negative user count and iteration limit every sequence runs to its
    end. *)
Theorem buffers_fixed_and_masked (u i d a : Z) (dv : Device) (fuel : nat) (ops : list Op) :
  match run fuel ops (KinectController_new u i d a dv) with
  | Returns s =>
      (rows (depthMatrix s) = 480 /\ cols (depthMatrix s) = 640 /\
       Z.of_nat (length (data (depthMatrix s))) = 480 * 640) /\
      (rows (usersMatrix s) = 480 /\ cols (usersMatrix s) = 640 /\
       Z.of_nat (length (data (usersMatrix s))) = 480 * 640) /\
      (Forall keeps_threshold ops -> masked s) /\
      (forall (fuel' : nat) (s' : KinectController),
         update fuel' s = Returns (XN_STATUS_OK, s') ->
         forall x y, 0 <= x < 640 -> 0 <= y < 480 ->
           depthThresh s' <= pDepthMap (current_frame (dev s')) (y * 640 + x) ->
           Mat_at (depthMatrix s') y (639 - x) = 0 /\
           Mat_at (usersMatrix s') y (639 - x) = 0) /\
      (forall (fuel' : nat) (rc : XnStatus) (s' : KinectController),
         reset fuel' s = Returns (rc, s') -> masked s') /\
      (forall (fuel' : nat) (ops' : list Op) (s' : KinectController),
         masked s -> Forall keeps_threshold ops' ->
         run fuel' ops' s = Returns s' -> masked s')
  | _ => True
  end /\
  (0 <= u -> 0 <= i ->
   exists s, run (S (S fuel)) ops (KinectController_new u i d a dv) = Returns s).
Proof.
  split.
  - destruct (run fuel ops (KinectController_new u i d a dv)) as [s| |] eqn:E; [|exact I..].
    destruct (run_sound _ a _ _ _ E (KinectController_new_sound u i d a dv))
      as ((_ & _ & (Hr & Hc & Hl) & (Hr' & Hc' & Hl')) & _).
    split; [split; [exact Hr|split; [exact Hc|rewrite Hl; apply Z2Nat.id; lia]]|].
    split; [split; [exact Hr'|split; [exact Hc'|rewrite Hl'; apply Z2Nat.id; lia]]|].
    split; [|split; [|split]].
    + intros Hops. apply (run_masked _ _ _ _ E Hops).
      destruct (KinectController_new_facts u i d a dv)
        as (_ & _ & _ & _ & _ & _ & _ & _ & Hd & Hu & _).
      apply masked_zeros; assumption.
    + intros fuel' s' H.
      destruct (update_updated _ _ _ _ H) as (_ & _ & _ & _ & _ & Hdone).
      destruct (Hdone eq_refl) as (s1 & Hcycle & _).
      apply (cycle_done_masked s1), Hcycle.
    + intros fuel' rc s' H. apply (reset_masked _ _ _ _ H).
    + intros fuel' ops' s' Hm Hops H. apply (run_masked _ _ _ _ H Hops Hm).
  - intros Hu Hi.
    destruct (KinectController_new_facts u i d a dv) as (Hmu & Hmi & _).
    apply (run_returns fuel a); [lia|lia|apply KinectController_new_sound].
Qed.

(** The invariant as the specification states it fails once [setDepth]
    lowers the threshold: after [update(); setDepth(-4000)] on a frame of
    depth 3000 and label 2, constructed with threshold 6000, the threshold
    is 2000, the pixel is outside it, and the buffers still hold 129 and
    2 at its mirrored coordinate. *)
Lemma buffers_fixed_and_masked_counterexample :
  exists s,
    run 1 [OpUpdate; OpSetDepth (-4000)]
      (KinectController_new 6 10000 6000 10000 (steady_device 3000 2)) = Returns s /\
    depthThresh s = 2000 /\
    pDepthMap (current_frame (dev s)) (0 * 640 + 0) = 3000 /\
    Mat_at (depthMatrix s) 0 (639 - 0) = 129 /\
    Mat_at (usersMatrix s) 0 (639 - 0) = 2 /\
    ~ masked s.
Proof.
  destruct (update_once 0 (KinectController_new 6 10000 6000 10000 (steady_device 3000 2)))
    as (s' & E & Ht & Hc & Hf & _).
  - apply Z.leb_le. vm_compute. reflexivity.
  - vm_compute. reflexivity.
  - apply Z.leb_le. vm_compute. reflexivity.
  - exists (setDepth (-4000) s').
    assert (Hrun : run 1 [OpUpdate; OpSetDepth (-4000)]
                     (KinectController_new 6 10000 6000 10000 (steady_device 3000 2))
                   = Returns (setDepth (-4000) s')).
    { cbn [run step]. rewrite E. reflexivity. }
    assert (Hthresh : depthThresh (setDepth (-4000) s') = 2000).
    { change (wrap32 (depthThresh s' + -4000) = 2000). rewrite Ht.
      vm_compute. reflexivity. }
    assert (Hraw : pDepthMap (current_frame (dev (setDepth (-4000) s'))) (0 * 640 + 0)
                   = 3000).
    { change (pDepthMap (frame_of (dev s') (frame_no (dev s'))) (0 * 640 + 0) = 3000).
      rewrite Hf. reflexivity. }
    destruct (update_pixels 1 _ s' 0 0 E ltac:(lia) ltac:(lia)) as [Hd Hu].
    assert (Hdepth : Mat_at (depthMatrix (setDepth (-4000) s')) 0 (639 - 0) = 129).
    { change (Mat_at (depthMatrix s') 0 (639 - 0) = 129). rewrite Hd.
      unfold current_frame. rewrite Hf, Hc.
      replace (depthThresh _) with 6000 by (vm_compute; reflexivity).
      replace (colorByDepth _) with (F32.div (F32.of_int 255) (F32.of_int 6000))
        by (vm_compute; reflexivity).
      replace (frame_of _ _) with (mkFrame (fun _ => 3000) (fun _ => 2)) by reflexivity.
      vm_compute. reflexivity. }
    assert (Husers : Mat_at (usersMatrix (setDepth (-4000) s')) 0 (639 - 0) = 2).
    { change (Mat_at (usersMatrix s') 0 (639 - 0) = 2). rewrite Hu.
      unfold current_frame. rewrite Hf.
      replace (depthThresh _) with 6000 by (vm_compute; reflexivity).
      replace (frame_of _ _) with (mkFrame (fun _ => 3000) (fun _ => 2)) by reflexivity.
      vm_compute. reflexivity. }
    split; [exact Hrun|]. split; [exact Hthresh|]. split; [exact Hraw|].
    split; [exact Hdepth|]. split; [exact Husers|].
    intros Hm. destruct (Hm 0 0 ltac:(lia) ltac:(lia)) as [Hzero _].
    + rewrite Hthresh, Hraw. lia.
    + rewrite Hdepth in Hzero. discriminate.
Qed.

(** ** C6 *)




(** ** C8 *)

(** C8, what the code does: [setDepth] adds the delta to the threshold
    and leaves the cached scale factor as it was; after [setDepth(1000)] on
    a controller constructed with threshold 6000 the threshold is 7000 and
    the scale is still 255 / 6000, not 255 / 7000. *)
Theorem setDepth_keeps_scale :
  (forall (delta : Z) (s : KinectController),
     depthThresh (setDepth delta s) = wrap32 (depthThresh s + delta) /\
     colorByDepth (setDepth delta s) = colorByDepth s) /\
  (let s := setDepth 1000 (KinectController_new 6 10000 6000 10000 (steady_device 3000 2)) in
   depthThresh s = 7000 /\
   colorByDepth s = F32.div (F32.of_int COLOR_RANGE) (F32.of_int 6000) /\
   colorByDepth s <> F32.div (F32.of_int COLOR_RANGE) (F32.of_int (depthThresh s))).
Proof.
  split.
  - intros delta s. split; reflexivity.
  - vm_compute. split; [reflexivity|]. split; [reflexivity|discriminate].
Qed.

(** ** C9 *)

(** C9, what the code does: [reset] returns the status member, which the
    wait of its follow-up [update] overwrites.  When [StartGeneratingAll]
    fails during the re-initialisation (status 1 for the 14th status the
    device gives) and the following wait succeeds, [init] has failed and
    [reset] returns [XN_STATUS_OK]; so it does when [GetUsers] fails in the
    follow-up cycle, whose status is never read. *)
Theorem reset_swallows_failure :
  (let s := KinectController_new 6 10000 6000 10000 (failing_device 13 1) in
   fst (init (set_iterations 0 (kinectCleanupExit s))) = 1 /\
   fst <$> returned (reset 1 s) = Some XN_STATUS_OK) /\
  (let s := KinectController_new 6 10000 6000 10000 (failing_device 15 1) in
   fst (sdk_call (GetUsers 6) (snd (wait_one_update_all (dev (restarted s))))) = 1 /\
   fst <$> returned (reset 1 s) = Some XN_STATUS_OK).
Proof. split; split; reflexivity. Qed.

(** ** C10 *)

(** C10 as the code has it: with a stored threshold that is zero or
    negative, every call of [update] that returns [XN_STATUS_OK] leaves
    both output buffers entirely zero and the threshold as it was.  The
    scale factor is left alone only by a call that finds no reset due: a
    call that resets runs [init], which divides 255 by the threshold and
    stores the quotient. *)
Theorem nonpositive_threshold_blanks (fuel : nat) (s s' : KinectController) :
  depthThresh s <= 0 ->
  update fuel s = Returns (XN_STATUS_OK, s') ->
  depthMatrix s' = Mat_zeros 480 640 /\
  usersMatrix s' = Mat_zeros 480 640 /\
  depthThresh s' = depthThresh s /\
  colorByDepth s' = (if maxIterate s <? iterations s
                     then F32.div (F32.of_int COLOR_RANGE) (F32.of_int (depthThresh s))
                     else colorByDepth s).
Proof.
  intros Hneg H.
  destruct (update_updated _ _ _ _ H) as ((_ & _ & Ht & _) & Hwf & _ & Hc & _ & Hdone).
  destruct (Hdone eq_refl) as (s1 & Hcycle & _).
  destruct (cycle_done_buffers_wf _ _ Hcycle) as [Hwd Hwu].
  assert (Hzero : forall y x, 0 <= y < 480 -> 0 <= x < 640 ->
            Mat_at (depthMatrix s') y x = 0 /\ Mat_at (usersMatrix s') y x = 0).
  { intros y x Hy Hx.
    destruct (update_pixels _ _ _ y (639 - x) H Hy ltac:(lia)) as [Hd Hu].
    replace (639 - (639 - x)) with x in Hd, Hu by lia.
    rewrite Hd, Hu. unfold depth_pixel, users_pixel.
    pose proof (pDepthMap_nonneg (current_frame (dev s')) (y * 640 + (639 - x))).
    destruct (pDepthMap (current_frame (dev s')) (y * 640 + (639 - x)) <? depthThresh s)
      eqn:E; [lia|]. split; reflexivity. }
  split; [apply Mat_all_zero; [exact Hwd|intros; apply Hzero; assumption]|].
  split; [apply Mat_all_zero; [exact Hwu|intros; apply Hzero; assumption]|].
  split; [exact Ht|exact Hc].
Qed.

(** C10 at a state the public interface reaches: [setDepth(-6000)] on a
    controller constructed with threshold 6000 stores threshold 0, and the
    next call of [update] succeeds and leaves both buffers zero. *)
Lemma nonpositive_threshold_blanks_witness :
  let s := setDepth (-6000) (KinectController_new 6 10000 6000 10000 (steady_device 3000 2)) in
  depthThresh s = 0 /\
  exists s', update 1 s = Returns (XN_STATUS_OK, s') /\
             depthMatrix s' = Mat_zeros 480 640 /\
             usersMatrix s' = Mat_zeros 480 640.
Proof.
  intros s. split; [vm_compute; reflexivity|].
  destruct (update_once 0 s) as (s' & E & _).
  - apply Z.leb_le. vm_compute. reflexivity.
  - vm_compute. reflexivity.
  - apply Z.leb_le. vm_compute. reflexivity.
  - exists s'. split; [exact E|].
    destruct (nonpositive_threshold_blanks 1 s s') as (Hd & Hu & _).
    + apply Z.leb_le. vm_compute. reflexivity.
    + exact E.
    + split; assumption.
Defined.

(** The claim as written fails on the call of [update] that resets: with
    an iteration limit of 0, after [update(); setDepth(-6000)] the
    threshold is 0 and the counter 1, above the limit; the next [update]
    resets, and [init] divides 255 by the threshold 0: the scale factor
    changes from [255 / 6000] to [+infinity]. *)
Lemma nonpositive_threshold_blanks_counterexample :
  let s0 := KinectController_new 6 0 6000 10000 (steady_device 3000 2) in
  (fun s => (depthThresh s, maxIterate s, iterations s, colorByDepth s))
    <$> returned (run 2 [OpUpdate; OpSetDepth (-6000)] s0)
  = Some (0, 0, 1, F32.div (F32.of_int 255) (F32.of_int 6000)) /\
  (fun s => (xnRetVal s, depthThresh s, colorByDepth s))
    <$> returned (run 2 [OpUpdate; OpSetDepth (-6000); OpUpdate] s0)
  = Some (XN_STATUS_OK, 0, F32.div (F32.of_int 255) (F32.of_int 0)) /\
  F32.div (F32.of_int 255) (F32.of_int 0) = S754_infinity false /\
  F32.div (F32.of_int 255) (F32.of_int 0) <> F32.div (F32.of_int 255) (F32.of_int 6000).
Proof.
  split; [reflexivity|]. split; [reflexivity|]. split; [reflexivity|].
  vm_compute. discriminate.
Qed.

(** ** Termination of [update] *)

(** X1: with a non-negative user count and a non-negative iteration
    limit, [update] returns, whatever the device answers: the recursion
    through [reset] is at most one level deep. *)
Theorem update_terminates (fuel : nat) (s : KinectController) :
  0 <= maxUsers s -> 0 <= maxIterate s ->
  exists rc s', update (S (S fuel)) s = Returns (rc, s').
Proof.
  intros Hu Hm. apply update_returns; [exact Hu|right; exact Hm].
Qed.

(** X1 at a freshly constructed controller with the default arguments. *)
Lemma update_terminates_witness :
  exists rc s',
    update 2 (KinectController_new 6 10000 6000 10000 (steady_device 3000 2))
      = Returns (rc, s').
Proof.
  apply (update_terminates 0).
  - apply Z.leb_le. vm_compute. reflexivity.
  - apply Z.leb_le. vm_compute. reflexivity.
Defined.

(** X2: with a negative iteration limit, a call of [update] that finds
    the counter above the limit never returns: it calls [reset], whose
    [init] zeroes the counter, and [reset] calls [update], which finds the
    counter above the limit again.  No amount of fuel suffices. *)
Theorem update_negative_limit_diverges (fuel : nat) (s : KinectController) :
  maxIterate s < 0 -> maxIterate s < iterations s ->
  update fuel s = OutOfFuel.
Proof.
  revert s. induction fuel as [|fuel IH]; intros s Hneg Hdue; [reflexivity|].
  rewrite update_unfold.
  destruct (maxIterate s <? iterations s) eqn:E; [|lia].
  rewrite reset_with_unfold.
  destruct (restarted_facts s) as ((_ & Hm & _) & Hit & _).
  rewrite IH by lia. reflexivity.
Qed.

(** X2 at a controller constructed with an iteration limit of -1: its
    first call of [update] exhausts any fuel, here 7. *)
Lemma update_negative_limit_diverges_witness :
  update 7 (KinectController_new 6 (-1) 6000 10000 (steady_device 3000 2)) = OutOfFuel.
Proof.
  apply update_negative_limit_diverges.
  - apply Z.ltb_lt. vm_compute. reflexivity.
  - apply Z.ltb_lt. vm_compute. reflexivity.
Defined.

(** ** The device calls of the member functions *)

Lemma stepped_trans (k1 k2 : nat) (e1 e2 : list DevCall) (s1 s2 s3 : KinectController) :
  stepped k1 e1 s1 s2 -> stepped k2 e2 s2 s3 -> stepped (k2 + k1) (e2 ++ e1) s1 s3.
Proof.
  intros (Ht1 & Hc1 & Hs1) (Ht2 & Hc2 & Hs2). unfold stepped.
  rewrite Ht2, Ht1, Hc2, Hc1, Hs2, Hs1, <- app_assoc. split; [reflexivity|].
  split; [lia|reflexivity].
Qed.

Lemma stepped_status_ahead (k j : nat) (e : list DevCall) (s s' : KinectController) :
  stepped k e s s' -> status_ahead j s' = status_ahead (j + k) s.
Proof.
  intros (_ & Hc & Hs). unfold status_ahead. rewrite Hs, Hc. f_equal. lia.
Qed.

Lemma set_xnRetVal_stepped (rc : XnStatus) (s : KinectController) :
  stepped 0 [] s (set_xnRetVal rc s).
Proof. unfold stepped. cbn. auto. Qed.

Lemma checked_call_stepped (c : DevCall) (s : KinectController) :
  stepped 1 [c] s (snd (checked_call c s)) /\
  xnRetVal (snd (checked_call c s)) = status_ahead 0 s /\
  fst (checked_call c s) = check_failed (status_ahead 0 s).
Proof. unfold stepped, checked_call, status_ahead. cbn. auto. Qed.

Lemma dropped_call_stepped (c : DevCall) (s : KinectController) :
  stepped 1 [c] s (set_dev (snd (sdk_call c (dev s))) s) /\
  xnRetVal (set_dev (snd (sdk_call c (dev s))) s) = xnRetVal s.
Proof. unfold stepped. cbn. auto. Qed.

Lemma void_call_stepped (c : DevCall) (s : KinectController) :
  stepped 0 [c] s (set_dev (sdk_void c (dev s)) s) /\
  xnRetVal (set_dev (sdk_void c (dev s)) s) = xnRetVal s.
Proof. unfold stepped. cbn. auto. Qed.

(** One checked call after the calls [e]: the state after it, with what
    it adds to the device and whether the check fails. *)
Ltac checked_call_next H :=
  match goal with
  | |- context [checked_call ?c ?s] =>
      let Hs := fresh "Hstep" in
      let Hx := fresh "Hret" in
      let Hf := fresh "Hfail" in
      destruct (checked_call_stepped c s) as (Hs & Hx & Hf);
      rewrite (stepped_status_ahead _ _ _ _ _ H) in Hx, Hf;
      pose proof (stepped_trans _ _ _ _ _ _ _ H Hs);
      clear Hs;
      destruct (checked_call c s) as [? ?];
      cbn [fst snd Nat.add app] in *;
      subst
  end.

Lemma initDepthControl_result (s : KinectController) :
  let r := initDepthControl s in
  stepped (depth_statuses_read s) (drop (8 - depth_calls_made s) depth_calls) s (snd r) /\
  fst r = xnRetVal (snd r) /\
  fst r = depth_status s.
Proof.
  unfold initDepthControl, depth_statuses_read, depth_calls_made, depth_status.
  pose proof (set_xnRetVal_stepped XN_STATUS_OK s) as H0.
  generalize dependent (set_xnRetVal XN_STATUS_OK s). intros s0 H0.
  checked_call_next H0. clear H0.
  destruct (check_failed (status_ahead 0 s)); [cbn [fst snd]; auto|].
  checked_call_next H. clear H.
  destruct (check_failed (status_ahead 1 s)); [cbn [fst snd]; auto|].
  checked_call_next H0. clear H0.
  destruct (check_failed (status_ahead 2 s)); [cbn [fst snd]; auto|].
  checked_call_next H. clear H.
  destruct (check_failed (status_ahead 3 s)); [cbn [fst snd]; auto|].
  destruct (dropped_call_stepped RegisterUserCallbacks k2) as (H5 & _).
  pose proof (stepped_trans _ _ _ _ _ _ _ H0 H5) as H5'. clear H0 H5.
  generalize dependent (set_dev (sdk_call RegisterUserCallbacks (dev k2)).2 k2).
  intros s5 H5.
  destruct (void_call_stepped GetMetaData s5) as (H6 & _).
  pose proof (stepped_trans _ _ _ _ _ _ _ H5 H6) as H6'. clear H5 H6.
  generalize dependent (set_dev (sdk_void GetMetaData (dev s5)) s5).
  intros s6 H6.
  destruct (dropped_call_stepped GetUserPixels s6) as (H7 & _).
  pose proof (stepped_trans _ _ _ _ _ _ _ H6 H7) as H7'. clear H6 H7.
  generalize dependent (set_dev (sdk_call GetUserPixels (dev s6)).2 s6).
  intros s7 H7. cbn [Nat.add app] in H7.
  checked_call_next H7. clear H7.
  destruct (check_failed (status_ahead 6 s)); cbn [fst snd]; auto.
Qed.

Lemma initMotorControl_stepped (s : KinectController) :
  stepped 0 (motor_calls (nuiAngle s)) s (initMotorControl s) /\
  xnRetVal (initMotorControl s) = xnRetVal s.
Proof. unfold stepped, initMotorControl. cbn. auto. Qed.

Lemma init_result (s : KinectController) :
  stepped (depth_statuses_read s) (init_calls s) s (snd (init s)) /\
  fst (init s) = xnRetVal (snd (init s)) /\
  fst (init s) = depth_status s.
Proof.
  unfold init, init_calls.
  set (s4 := set_usersMatrix _ _).
  assert (H4 : stepped 0 [] s s4 /\ nuiAngle s4 = nuiAngle s /\
               depth_status s4 = depth_status s /\
               depth_calls_made s4 = depth_calls_made s /\
               depth_statuses_read s4 = depth_statuses_read s).
  { subst s4. unfold stepped, depth_status, depth_statuses_read, depth_calls_made,
      status_ahead. cbn. auto 10. }
  clearbody s4. destruct H4 as (H4 & Hn4 & Hd4 & Hm4 & Hr4).
  destruct (initDepthControl_result s4) as (H5 & Hx5 & Hs5).
  pose proof (initDepthControl_sdk_only s4) as (_ & _ & _ & _ & _ & _ & _ & _ & Hn5 & _).
  destruct (initDepthControl s4) as [rc s5]. cbn [fst snd] in *. cbv beta iota.
  rewrite Hd4, Hm4, Hr4 in *. subst rc. rewrite <- Hs5.
  pose proof (stepped_trans _ _ _ _ _ _ _ H4 H5) as H6.
  rewrite Nat.add_0_r, app_nil_r in H6.
  destruct (check_failed (xnRetVal s5)); cbn [fst snd].
  - auto.
  - destruct (initMotorControl_stepped s5) as (H7 & Hx7).
    pose proof (stepped_trans _ _ _ _ _ _ _ H6 H7) as H8.
    rewrite Hn5, Hn4 in H8. cbn [Nat.add] in H8. auto.
Qed.

Lemma calls_of_app (c : DevCall) (t1 t2 : list DevCall) :
  calls_of c (t1 ++ t2) = (calls_of c t1 + calls_of c t2)%nat.
Proof. unfold calls_of. rewrite filter_app, length_app. reflexivity. Qed.

Lemma session_calls_nil (a : Z) : session_calls a [].
Proof. split; [constructor|]. split; [reflexivity|]. cbn. lia. Qed.

Lemma session_calls_app (a : Z) (e1 e2 : list DevCall) :
  session_calls a e1 -> session_calls a e2 -> session_calls a (e2 ++ e1).
Proof.
  intros (Hf1 & Hi1 & Hm1) (Hf2 & Hi2 & Hm2). unfold session_calls.
  rewrite !calls_of_app. split; [apply Forall_app; auto|]. split; lia.
Qed.

Lemma wait_one_update_all_stepped (s : KinectController) :
  let r := wait_one_update_all (dev s) in
  let s1 := set_xnRetVal (fst r) (set_dev (snd r) s) in
  stepped 1 [WaitOneUpdateAll] s s1 /\ xnRetVal s1 = fst r /\
  maxUsers s1 = maxUsers s.
Proof.
  unfold stepped, wait_one_update_all, sdk_call. cbn.
  destruct (status_of (dev s) (calls (dev s)) =? XN_STATUS_OK); cbn; auto.
Qed.

Lemma acquire_and_process_stepped (s : KinectController) (rc : XnStatus)
    (s' : KinectController) :
  acquire_and_process s = Returns (rc, s') ->
  (rc = XN_STATUS_OK /\
   stepped 2 [GetUsers (u16 (maxUsers s)); WaitOneUpdateAll] s s') \/
  (rc <> XN_STATUS_OK /\ stepped 1 [WaitOneUpdateAll] s s').
Proof.
  unfold acquire_and_process.
  destruct (wait_one_update_all_stepped s) as (H1 & Hx1 & Hu1). revert H1 Hx1 Hu1.
  destruct (wait_one_update_all (dev s)) as [rc1 d1]. cbn [fst snd].
  generalize (set_xnRetVal rc1 (set_dev d1 s)). intros s1 H1 Hx1 Hu1.
  unfold check_failed. rewrite Hx1, Hu1.
  destruct (rc1 =? XN_STATUS_OK) eqn:E; cbn [negb].
  - destruct (maxUsers s <? 0); [discriminate|].
    destruct (dropped_call_stepped (GetUsers (u16 (maxUsers s))) s1) as (H2 & Hx2).
    revert H2 Hx2.
    generalize (set_dev (snd (sdk_call (GetUsers (u16 (maxUsers s))) (dev s1))) s1).
    intros s2 H2 Hx2. rewrite Hx2, Hx1, E. cbn [negb].
    intros H. apply Returns_pair_inj in H. destruct H as [Hrc <-].
    cbn [xnRetVal set_iterations set_usersMatrix set_depthMatrix] in Hrc.
    rewrite Hx2, Hx1 in Hrc. apply Z.eqb_eq in E.
    left. split; [congruence|].
    pose proof (stepped_trans _ _ _ _ _ _ _ H1 H2) as H3.
    unfold stepped in *. cbn. exact H3.
  - intros H. apply Returns_pair_inj in H. destruct H as [Hrc <-].
    apply Z.eqb_neq in E.
    right. split; [congruence|exact H1].
Qed.

Lemma kinectCleanupExit_stepped (s : KinectController) :
  stepped 0 [DestroyNUIMotor; ContextShutdown] s (kinectCleanupExit s).
Proof. unfold stepped, kinectCleanupExit, stopMotorControl, stopDepthControl. cbn. auto. Qed.

Lemma set_iterations_stepped (n : Z) (s : KinectController) :
  stepped 0 [] s (set_iterations n s).
Proof. unfold stepped. cbn. auto. Qed.

Lemma restarted_stepped (s : KinectController) :
  stepped (depth_statuses_read (set_iterations 0 (kinectCleanupExit s)))
    (restart_calls s) s (restarted s).
Proof.
  unfold restarted, restart_calls.
  destruct (init_result (set_iterations 0 (kinectCleanupExit s))) as (Hi & _).
  pose proof (stepped_trans _ _ _ _ _ _ _ (kinectCleanupExit_stepped s)
                (set_iterations_stepped 0 (kinectCleanupExit s))) as H0.
  pose proof (stepped_trans _ _ _ _ _ _ _ H0 Hi) as H1.
  cbn [app Nat.add] in H1. rewrite Nat.add_0_r in H1. exact H1.
Qed.

Lemma init_calls_counts (s : KinectController) :
  Forall (commands (nuiAngle s)) (init_calls s) /\
  calls_of ContextInit (init_calls s) = 1%nat /\
  calls_of ContextShutdown (init_calls s) = 0%nat /\
  calls_of DestroyNUIMotor (init_calls s) = 0%nat /\
  calls_of CreateNUIMotor (init_calls s)
    = (if check_failed (depth_status s) then 0 else 1)%nat.
Proof.
  unfold init_calls, depth_calls_made, motor_calls, depth_calls.
  destruct (check_failed (depth_status s));
    destruct (check_failed (status_ahead 0 s));
    [|destruct (check_failed (status_ahead 1 s));
      [|destruct (check_failed (status_ahead 2 s));
        [|destruct (check_failed (status_ahead 3 s))]]..];
    (split; [repeat constructor|]); vm_compute; auto.
Qed.

Lemma restart_calls_session (s : KinectController) :
  session_calls (nuiAngle s) (restart_calls s).
Proof.
  unfold restart_calls, session_calls.
  destruct (init_calls_counts (set_iterations 0 (kinectCleanupExit s)))
    as (Hf & Hi & Hs & Hd & Hc).
  rewrite !calls_of_app, Hi, Hs, Hd, Hc.
  split; [apply Forall_app; split; [exact Hf|repeat constructor]|].
  destruct (check_failed _); vm_compute; split; lia.
Qed.

Lemma cycle_calls_session (a : Z) (n : Z) :
  session_calls a [GetUsers n; WaitOneUpdateAll] /\ session_calls a [WaitOneUpdateAll].
Proof. split; (split; [repeat constructor|vm_compute; auto]). Qed.

Lemma acquire_and_process_session (s : KinectController) (rc : XnStatus)
    (s' : KinectController) :
  acquire_and_process s = Returns (rc, s') ->
  exists k ext, stepped k ext s s' /\ session_calls (nuiAngle s) ext /\
                motor_open (ext ++ trace (dev s)) = motor_open (trace (dev s)).
Proof.
  intros H.
  destruct (cycle_calls_session (nuiAngle s) (u16 (maxUsers s))) as [H2 H1].
  destruct (acquire_and_process_stepped _ _ _ H) as [[_ Hs]|[_ Hs]]; eauto 6.
Qed.

Lemma update_session (fuel : nat) :
  forall (s : KinectController) (rc : XnStatus) (s' : KinectController),
  update fuel s = Returns (rc, s') ->
  exists k ext, stepped k ext s s' /\ session_calls (nuiAngle s) ext.
Proof.
  induction fuel as [|fuel IH]; intros s rc s' H; [discriminate|].
  rewrite update_unfold in H.
  destruct (maxIterate s <? iterations s) eqn:Hreset.
  - rewrite reset_with_unfold in H.
    destruct (update fuel (restarted s)) as [[rc0 s1]| |] eqn:Hnested;
      try discriminate.
    change (acquire_and_process s1 = Returns (rc, s')) in H.
    destruct (restarted_facts s) as ((_ & _ & _ & _ & Hn0 & _) & _).
    destruct (IH _ _ _ Hnested) as (k1 & e1 & Hs1 & Hc1).
    destruct (update_updated _ _ _ _ Hnested) as ((_ & _ & _ & _ & Hn1 & _) & _).
    destruct (acquire_and_process_session _ _ _ H) as (k2 & e2 & Hs2 & Hc2 & _).
    rewrite Hn1, Hn0 in Hc2. rewrite Hn0 in Hc1.
    pose proof (stepped_trans _ _ _ _ _ _ _ (restarted_stepped s) Hs1) as H01.
    pose proof (stepped_trans _ _ _ _ _ _ _ H01 Hs2) as H02.
    eexists _, _. split; [exact H02|].
    apply session_calls_app; [|exact Hc2].
    apply session_calls_app; [apply restart_calls_session|exact Hc1].
  - change (acquire_and_process s = Returns (rc, s')) in H.
    destruct (acquire_and_process_session _ _ _ H) as (k2 & e2 & Hs2 & Hc2 & _).
    eauto.
Qed.

Lemma reset_session (fuel : nat) (s : KinectController) (rc : XnStatus)
    (s' : KinectController) :
  reset fuel s = Returns (rc, s') ->
  exists k ext, stepped k ext s s' /\ session_calls (nuiAngle s) ext.
Proof.
  rewrite reset_unfold, reset_with_unfold. intros H.
  destruct (update fuel (restarted s)) as [[rc1 s1]| |] eqn:E; try discriminate.
  cbn [mbind outcome_bind snd] in H. apply Returns_pair_inj in H. destruct H as [_ <-].
  destruct (restarted_facts s) as ((_ & _ & _ & _ & Hn0 & _) & _).
  destruct (update_session _ _ _ _ E) as (k1 & e1 & Hs1 & Hc1). rewrite Hn0 in Hc1.
  pose proof (stepped_trans _ _ _ _ _ _ _ (restarted_stepped s) Hs1) as H01.
  eexists _, _. split; [exact H01|].
  apply session_calls_app; [apply restart_calls_session|exact Hc1].
Qed.

Lemma session_calls_tidy (a : Z) (ext : list DevCall) :
  -15000 <= a <= 15000 -> session_calls a ext -> tidy ext.
Proof.
  intros Ha (Hf & Hi & Hm). split; [|auto].
  eapply Forall_impl; [exact Hf|]. intros [] Hc; cbn in *; try exact I. lia.
Qed.

Lemma tidy_app (e1 e2 : list DevCall) : tidy e1 -> tidy e2 -> tidy (e2 ++ e1).
Proof.
  intros (Hf1 & Hi1 & Hm1) (Hf2 & Hi2 & Hm2). unfold tidy.
  rewrite !calls_of_app. split; [apply Forall_app; auto|]. split; lia.
Qed.

Lemma step_tidy (fuel : nat) (op : Op) (a : Z) (s s' : KinectController) :
  step fuel op s = Returns s' -> sound a s ->
  exists k ext, stepped k ext s s' /\ tidy ext.
Proof.
  intros H (Hia & Hna & _). destruct op; cbn [step] in H.
  - destruct (update fuel s) as [[rc s1]| |] eqn:E; try discriminate.
    cbn [mbind outcome_bind snd] in H. injection H as <-.
    destruct (update_session _ _ _ _ E) as (k & ext & Hs & Hc).
    eauto using session_calls_tidy.
  - destruct (reset fuel s) as [[rc s1]| |] eqn:E; try discriminate.
    cbn [mbind outcome_bind snd] in H. injection H as <-.
    destruct (reset_session _ _ _ _ E) as (k & ext & Hs & Hc).
    eauto using session_calls_tidy.
  - injection H as <-. exists 0%nat, []. split; [unfold stepped; cbn; auto|].
    split; [constructor|]. split; [reflexivity|]. cbn. lia.
  - injection H as <-.
    exists 0%nat, [SetNUIMotorPosition (clamp_angle (wrap32 (nuiAngle s + angle)))].
    split; [unfold stepped; cbn; auto|].
    split; [repeat constructor; apply clamp_angle_range|]. vm_compute. auto.
  - injection H as <-. exists 0%nat, [SetNUIMotorPosition (initAngle s)].
    split; [unfold stepped; cbn; auto|].
    split; [repeat constructor; cbn; rewrite Hia; apply clamp_angle_range|].
    vm_compute. auto.
Qed.

Lemma run_tidy (fuel : nat) (a : Z) (ops : list Op) :
  forall s s', run fuel ops s = Returns s' -> sound a s ->
  exists k ext, stepped k ext s s' /\ tidy ext.
Proof.
  induction ops as [|op ops IH]; intros s s' H Hs; cbn [run] in H.
  - injection H as <-. exists 0%nat, []. split; [unfold stepped; cbn; auto|].
    split; [constructor|]. split; [reflexivity|]. cbn. lia.
  - destruct (step fuel op s) as [s1| |] eqn:E; try discriminate.
    cbn [mbind outcome_bind] in H.
    destruct (step_sound _ _ _ _ _ E Hs) as (Hs1 & _).
    destruct (step_tidy _ _ _ _ _ E Hs) as (k1 & e1 & Hst1 & Ht1).
    destruct (IH _ _ H Hs1) as (k2 & e2 & Hst2 & Ht2).
    eexists _, _. split; [exact (stepped_trans _ _ _ _ _ _ _ Hst1 Hst2)|].
    apply tidy_app; assumption.
Qed.

(** The calls of the constructor. *)
Lemma KinectController_new_stepped (u i d a : Z) (dv : Device) :
  exists k ext,
    trace (dev (KinectController_new u i d a dv)) = ext ++ trace dv /\
    calls (dev (KinectController_new u i d a dv)) = (k + calls dv)%nat /\
    Forall command_in_range ext /\
    calls_of ContextInit ext = 1%nat /\ calls_of ContextShutdown ext = 0%nat /\
    calls_of DestroyNUIMotor ext = 0%nat /\
    (calls_of CreateNUIMotor ext <= 1)%nat.
Proof.
  unfold KinectController_new. cbv zeta.
  match goal with |- context [init ?s0] =>
    destruct (init_result s0) as ((Ht & Hc & _) & _);
    destruct (init_calls_counts s0) as (Hf & Hi & Hs & Hd & Hm);
    exists (depth_statuses_read s0), (init_calls s0)
  end.
  cbn [dev nuiAngle] in *. split; [exact Ht|]. split; [exact Hc|].
  split.
  - eapply Forall_impl; [exact Hf|]. intros [] Hcmd; cbn in *; try exact I.
    subst. apply clamp_angle_range.
  - rewrite Hm. destruct (check_failed _); auto.
Qed.

(** ** The bytes of the buffers *)

Lemma depth_pixel_byte (thresh : Z) (scale : F32.float) (f : Frame) (ind : Z) :
  0 <= depth_pixel thresh scale f ind < 256.
Proof.
  unfold depth_pixel, F32.to_uchar.
  destruct (pDepthMap f ind <? thresh); [apply u8_range|lia].
Qed.

Lemma users_pixel_byte (thresh : Z) (f : Frame) (ind : Z) :
  0 <= users_pixel thresh f ind < 256.
Proof.
  unfold users_pixel.
  destruct (pDepthMap f ind <? thresh); [apply u8_range|lia].
Qed.

(** A 480 x 640 matrix whose pixels are bytes at every coordinate holds
    bytes throughout its array. *)
Lemma bytes_of_pixels (m : Mat) :
  Mat_wf 480 640 m ->
  (forall y x, 0 <= y < 480 -> 0 <= x < 640 -> 0 <= Mat_at m y x < 256) ->
  bytes m.
Proof.
  destruct m as [r c d]. unfold Mat_wf, Mat_at, bytes. cbn [rows cols data].
  intros (-> & -> & Hlen) Hpix.
  apply Forall_lookup. intros i v Hv.
  pose proof (lookup_lt_Some _ _ _ Hv) as Hi.
  specialize (Hpix (Z.of_nat i / 640) (Z.of_nat i mod 640)).
  pose proof (Z.div_mod (Z.of_nat i) 640 ltac:(lia)) as Hdm.
  pose proof (Z.mod_pos_bound (Z.of_nat i) 640 ltac:(lia)) as Hmod.
  replace (Z.to_nat (Z.of_nat i / 640 * 640 + Z.of_nat i mod 640)) with i in Hpix
    by lia.
  rewrite Hv in Hpix. apply Hpix; [|lia].
  split; [apply Z.div_pos; lia|].
  apply Z.div_lt_upper_bound; lia.
Qed.

Lemma bytes_zeros (r c : Z) : bytes (Mat_zeros r c).
Proof.
  unfold bytes, Mat_zeros. cbn [data]. apply Forall_replicate. lia.
Qed.

Lemma cycle_done_bytes (s s' : KinectController) :
  cycle_done s s' -> bytes (depthMatrix s') /\ bytes (usersMatrix s').
Proof.
  intros Hdone. destruct (cycle_done_buffers_wf _ _ Hdone) as [Hwd Hwu].
  destruct Hdone as (_ & _ & _ & _ & Hd & Hu & _).
  split; apply bytes_of_pixels; try assumption; intros y x Hy Hx;
    destruct (flip_fill_toflip_at (depthThresh s) (colorByDepth s)
                (current_frame (dev s')) y (639 - x)) as [Hd' Hu']; try lia;
    replace (639 - (639 - x)) with x in Hd', Hu' by lia.
  - rewrite Hd, Hd'. apply depth_pixel_byte.
  - rewrite Hu, Hu'. apply users_pixel_byte.
Qed.

Lemma acquire_and_process_bytes (s : KinectController) (rc : XnStatus)
    (s' : KinectController) :
  acquire_and_process s = Returns (rc, s') ->
  bytes (depthMatrix s) /\ bytes (usersMatrix s) ->
  bytes (depthMatrix s') /\ bytes (usersMatrix s').
Proof.
  intros H Hb.
  destruct (acquire_and_process_updated _ _ _ H) as (_ & _ & _ & _ & _ & Hdone & Hfail).
  destruct (Z.eq_dec rc XN_STATUS_OK) as [Hrc|Hrc].
  - apply (cycle_done_bytes s), Hdone, Hrc.
  - destruct (Hfail Hrc) as (_ & _ & _ & _ & -> & -> & _). exact Hb.
Qed.

Lemma update_bytes (fuel : nat) :
  forall (s : KinectController) (rc : XnStatus) (s' : KinectController),
  update fuel s = Returns (rc, s') ->
  bytes (depthMatrix s) /\ bytes (usersMatrix s) ->
  bytes (depthMatrix s') /\ bytes (usersMatrix s').
Proof.
  induction fuel as [|fuel IH]; intros s rc s' H Hb; [discriminate|].
  rewrite update_unfold in H.
  destruct (maxIterate s <? iterations s) eqn:Hreset.
  - rewrite reset_with_unfold in H.
    destruct (update fuel (restarted s)) as [[rc0 s1]| |] eqn:Hnested;
      try discriminate.
    change (acquire_and_process s1 = Returns (rc, s')) in H.
    destruct (restarted_facts s) as (_ & _ & _ & Hd0 & Hu0 & _).
    apply (acquire_and_process_bytes _ _ _ H), (IH _ _ _ Hnested).
    rewrite Hd0, Hu0. split; apply bytes_zeros.
  - change (acquire_and_process s = Returns (rc, s')) in H.
    apply (acquire_and_process_bytes _ _ _ H), Hb.
Qed.

Lemma reset_bytes (fuel : nat) (s : KinectController) (rc : XnStatus)
    (s' : KinectController) :
  reset fuel s = Returns (rc, s') ->
  bytes (depthMatrix s') /\ bytes (usersMatrix s').
Proof.
  rewrite reset_unfold, reset_with_unfold. intros H.
  destruct (update fuel (restarted s)) as [[rc1 s1]| |] eqn:E; try discriminate.
  cbn [mbind outcome_bind snd] in H. apply Returns_pair_inj in H. destruct H as [_ <-].
  destruct (restarted_facts s) as (_ & _ & _ & Hd0 & Hu0 & _).
  apply (update_bytes _ _ _ _ E). rewrite Hd0, Hu0. split; apply bytes_zeros.
Qed.

Lemma step_bytes (fuel : nat) (op : Op) (s s' : KinectController) :
  step fuel op s = Returns s' ->
  bytes (depthMatrix s) /\ bytes (usersMatrix s) ->
  bytes (depthMatrix s') /\ bytes (usersMatrix s').
Proof.
  intros H Hb. destruct op; cbn [step] in H.
  - destruct (update fuel s) as [[rc s1]| |] eqn:E; try discriminate.
    cbn [mbind outcome_bind snd] in H. injection H as <-.
    exact (update_bytes _ _ _ _ E Hb).
  - destruct (reset fuel s) as [[rc s1]| |] eqn:E; try discriminate.
    cbn [mbind outcome_bind snd] in H. injection H as <-.
    exact (reset_bytes _ _ _ _ E).
  - injection H as <-. exact Hb.
  - injection H as <-. exact Hb.
  - injection H as <-. exact Hb.
Qed.

Lemma run_bytes (fuel : nat) (ops : list Op) :
  forall s s', run fuel ops s = Returns s' ->
  bytes (depthMatrix s) /\ bytes (usersMatrix s) ->
  bytes (depthMatrix s') /\ bytes (usersMatrix s').
Proof.
  induction ops as [|op ops IH]; intros s s' H Hb; cbn [run] in H.
  - injection H as <-. exact Hb.
  - destruct (step fuel op s) as [s1| |] eqn:E; try discriminate.
    cbn [mbind outcome_bind] in H.
    exact (IH _ _ H (step_bytes _ _ _ _ E Hb)).
Qed.

(** ** Initialisation *)

Lemma check_failed_false (rc : XnStatus) :
  check_failed rc = false <-> rc = XN_STATUS_OK.
Proof.
  unfold check_failed, XN_STATUS_OK. destruct (rc =? 0) eqn:E; cbn.
  - apply Z.eqb_eq in E. tauto.
  - apply Z.eqb_neq in E. split; [discriminate|contradiction].
Qed.

Lemma check_failed_true (rc : XnStatus) :
  check_failed rc = true <-> rc <> XN_STATUS_OK.
Proof.
  rewrite <- check_failed_false. destruct (check_failed rc); split; congruence.
Qed.

(** X3: [initDepthControl] stops at the first checked call that fails.
    It returns the status member; it returns [XN_STATUS_OK] exactly when
    the five checked calls ([Context.Init], [DepthGenerator.Create],
    [SetMapOutputMode], [UserGenerator.Create], [StartGeneratingAll])
    succeed, whatever [RegisterUserCallbacks] and [GetUserPixels] answer;
    when the [k]-th of the first four is the first to fail it returns that
    call's status and has made [k + 1] calls and no more; when they all
    succeed it makes all eight calls and returns the status of
    [StartGeneratingAll]. *)
Theorem initDepthControl_first_failure (s : KinectController) :
  let r := initDepthControl s in
  fst r = xnRetVal (snd r) /\
  (fst r = XN_STATUS_OK <->
     status_ahead 0 s = XN_STATUS_OK /\ status_ahead 1 s = XN_STATUS_OK /\
     status_ahead 2 s = XN_STATUS_OK /\ status_ahead 3 s = XN_STATUS_OK /\
     status_ahead 6 s = XN_STATUS_OK) /\
  (forall k : nat, (k < 4)%nat ->
     (forall j : nat, (j < k)%nat -> status_ahead j s = XN_STATUS_OK) ->
     status_ahead k s <> XN_STATUS_OK ->
     fst r = status_ahead k s /\
     trace (dev (snd r)) = drop (7 - k) depth_calls ++ trace (dev s) /\
     calls (dev (snd r)) = (S k + calls (dev s))%nat) /\
  ((forall j : nat, (j < 4)%nat -> status_ahead j s = XN_STATUS_OK) ->
     fst r = status_ahead 6 s /\
     trace (dev (snd r)) = depth_calls ++ trace (dev s) /\
     calls (dev (snd r)) = (7 + calls (dev s))%nat).
Proof.
  cbv zeta.
  destruct (initDepthControl_result s) as ((Ht & Hc & _) & Hx & Hs).
  split; [exact Hx|]. clear Hx.
  rewrite Ht, Hc, Hs. clear Ht Hc Hs.
  unfold depth_status, depth_statuses_read, depth_calls_made.
  split; [|split].
  - destruct (check_failed (status_ahead 0 s)) eqn:E0;
      [apply check_failed_true in E0; tauto|apply check_failed_false in E0].
    destruct (check_failed (status_ahead 1 s)) eqn:E1;
      [apply check_failed_true in E1; tauto|apply check_failed_false in E1].
    destruct (check_failed (status_ahead 2 s)) eqn:E2;
      [apply check_failed_true in E2; tauto|apply check_failed_false in E2].
    destruct (check_failed (status_ahead 3 s)) eqn:E3;
      [apply check_failed_true in E3; tauto|apply check_failed_false in E3].
    tauto.
  - intros k Hk Hbefore Hfail. apply check_failed_true in Hfail.
    assert (Hok : forall j, (j < k)%nat -> check_failed (status_ahead j s) = false).
    { intros j Hj. apply check_failed_false, Hbefore, Hj. }
    destruct k as [|[|[|[|k]]]]; [| | | |lia].
    + rewrite Hfail. auto.
    + rewrite (Hok 0%nat), Hfail by lia. auto.
    + rewrite (Hok 0%nat), (Hok 1%nat), Hfail by lia. auto.
    + rewrite (Hok 0%nat), (Hok 1%nat), (Hok 2%nat), Hfail by lia. auto.
  - intros Hall.
    rewrite (proj2 (check_failed_false _) (Hall 0%nat ltac:(lia))).
    rewrite (proj2 (check_failed_false _) (Hall 1%nat ltac:(lia))).
    rewrite (proj2 (check_failed_false _) (Hall 2%nat ltac:(lia))).
    rewrite (proj2 (check_failed_false _) (Hall 3%nat ltac:(lia))). auto.
Qed.

(** X4: whatever the device answers, [init] zeroes the iteration counter
    and both output buffers, recomputes the scale factor from the stored
    threshold, leaves the limits, the threshold and the angles alone, and
    returns the status member, which is the status of [initDepthControl].
    The motor is created and sent to the stored angle only after the depth
    and user tracking came up: when [initDepthControl] fails [init] makes
    no call to the motor driver. *)
Theorem init_resets_members (s : KinectController) :
  let s' := snd (init s) in
  (iterations s' = 0 /\
   getDepthMat s' = Mat_zeros 480 640 /\ getUsersMat s' = Mat_zeros 480 640 /\
   colorByDepth s' = F32.div (F32.of_int COLOR_RANGE) (F32.of_int (depthThresh s))) /\
  (maxUsers s' = maxUsers s /\ maxIterate s' = maxIterate s /\
   depthThresh s' = depthThresh s /\
   initAngle s' = initAngle s /\ nuiAngle s' = nuiAngle s) /\
  (fst (init s) = xnRetVal s' /\ fst (init s) = fst (initDepthControl s)) /\
  (fst (init s) = XN_STATUS_OK ->
     trace (dev s')
     = [SetNUIMotorPosition (nuiAngle s); CreateNUIMotor; GetNUIDeviceSerial]
       ++ depth_calls ++ trace (dev s)) /\
  (fst (init s) <> XN_STATUS_OK ->
     trace (dev s') = trace (dev (snd (initDepthControl s)))).
Proof.
  cbv zeta.
  destruct (init_initialised s) as ((Hu & Hm & Ht & Hia & Hna & _) & Hit & Hc & Hd & Hum & _).
  destruct (init_result s) as ((Htr & _) & Hx & Hs).
  destruct (initDepthControl_result s) as ((Htr' & _) & _ & Hs').
  unfold getDepthMat, getUsersMat.
  split; [auto|]. split; [auto|]. split; [split; [exact Hx|congruence]|].
  rewrite Htr, Htr', Hs. unfold init_calls.
  split; intros Hrc.
  - pose proof (proj2 (check_failed_false _) Hrc) as Hcf. rewrite Hcf.
    unfold motor_calls. rewrite <- app_assoc.
    unfold depth_status in Hrc. unfold depth_calls_made.
    destruct (check_failed (status_ahead 0 s)) eqn:E0;
      [apply check_failed_true in E0; contradiction|].
    destruct (check_failed (status_ahead 1 s)) eqn:E1;
      [apply check_failed_true in E1; contradiction|].
    destruct (check_failed (status_ahead 2 s)) eqn:E2;
      [apply check_failed_true in E2; contradiction|].
    destruct (check_failed (status_ahead 3 s)) eqn:E3;
      [apply check_failed_true in E3; contradiction|].
    reflexivity.
  - pose proof (proj2 (check_failed_true _) Hrc) as Hcf. rewrite Hcf. reflexivity.
Qed.

(** ** The motor *)

Lemma motor_open_init_calls (s : KinectController) (t : list DevCall) :
  motor_open (init_calls s ++ t)
  = if check_failed (depth_status s) then motor_open t else true.
Proof.
  unfold init_calls, depth_calls_made, motor_calls, depth_calls.
  destruct (check_failed (depth_status s));
    destruct (check_failed (status_ahead 0 s));
    [|destruct (check_failed (status_ahead 1 s));
      [|destruct (check_failed (status_ahead 2 s));
        [|destruct (check_failed (status_ahead 3 s))]]..];
    reflexivity.
Qed.

Lemma motor_open_restarted (s : KinectController) :
  motor_open (trace (dev (restarted s)))
  = (fst (init (set_iterations 0 (kinectCleanupExit s))) =? XN_STATUS_OK).
Proof.
  destruct (restarted_stepped s) as (Ht & _). rewrite Ht. unfold restart_calls.
  rewrite <- app_assoc, motor_open_init_calls.
  destruct (init_result (set_iterations 0 (kinectCleanupExit s))) as (_ & _ & ->).
  unfold check_failed. destruct (_ =? XN_STATUS_OK); reflexivity.
Qed.

(** X5: [reset] destroys the motor handle and [init] creates a new one
    only when the depth and user tracking came up again.  So after a
    [reset] that returned (the iteration limit being non-negative), the
    motor handle is live exactly when the [init] inside it returned
    [XN_STATUS_OK]; when that [init] failed the handle stays destroyed,
    whatever [reset] itself returned, and a later [setMotorAngle] still
    sends its command to it. *)
Theorem reset_motor_handle (fuel : nat) (s : KinectController) (rc : XnStatus)
    (s' : KinectController) :
  0 <= maxIterate s ->
  reset fuel s = Returns (rc, s') ->
  let rc_init := fst (init (set_iterations 0 (kinectCleanupExit s))) in
  motor_open (trace (dev s')) = (rc_init =? XN_STATUS_OK) /\
  forall angle : Z,
    motor_open (trace (dev (setMotorAngle angle s'))) = (rc_init =? XN_STATUS_OK) /\
    head (trace (dev (setMotorAngle angle s')))
    = Some (SetNUIMotorPosition (nuiAngle (setMotorAngle angle s'))).
Proof.
  intros HM H. cbv zeta. rewrite reset_unfold, reset_with_unfold in H.
  destruct (update fuel (restarted s)) as [[rc1 s1]| |] eqn:E; try discriminate.
  cbn [mbind outcome_bind snd] in H. apply Returns_pair_inj in H. destruct H as [_ <-].
  destruct (restarted_facts s) as ((_ & Hm & _) & Hit & _).
  destruct fuel as [|fuel]; [discriminate|].
  rewrite update_no_reset in E by lia.
  destruct (acquire_and_process_session _ _ _ E) as (k & ext & (Ht & _) & _ & Hopen).
  assert (Hs1 : motor_open (trace (dev s1))
                = (fst (init (set_iterations 0 (kinectCleanupExit s))) =? XN_STATUS_OK)).
  { rewrite Ht, Hopen. apply motor_open_restarted. }
  split; [exact Hs1|]. intros angle.
  unfold setMotorAngle. cbn. split; [exact Hs1|reflexivity].
Qed.

(** X5 on a device whose [StartGeneratingAll] fails during the
    re-initialisation: [reset] returns and leaves the motor handle
    destroyed. *)
Lemma reset_motor_handle_witness :
  exists rc s',
    reset 1 (KinectController_new 6 10000 6000 10000 (failing_device 13 1))
      = Returns (rc, s') /\
    motor_open (trace (dev s')) = false /\
    motor_open (trace (dev (setMotorAngle 100 s'))) = false.
Proof.
  destruct (reset_returns 0 (KinectController_new 6 10000 6000 10000 (failing_device 13 1)))
    as (rc & s' & E).
  - apply Z.leb_le. vm_compute. reflexivity.
  - apply Z.leb_le. vm_compute. reflexivity.
  - exists rc, s'. split; [exact E|].
    assert (HM : 0 <= maxIterate
                        (KinectController_new 6 10000 6000 10000 (failing_device 13 1)))
      by (apply Z.leb_le; vm_compute; reflexivity).
    destruct (reset_motor_handle 1 _ rc s' HM E) as (Hopen & Hlater).
    split; [exact Hopen|]. exact (proj1 (Hlater 100)).
Defined.


(** X7: the session is torn down as often as it was brought up.  Among
    the calls made since construction, through any sequence of calls of
    [update], [reset], [setDepth], [setMotorAngle] and [resetMotorAngle],
    there is exactly one [Context.Init] more than
    [Context.Shutdown]s and at most one [CreateNUIMotor] more than
    [DestroyNUIMotor]s; once the destructor has run the counts of
    [Context.Init] and [Context.Shutdown] agree and there are at least as
    many [DestroyNUIMotor]s as [CreateNUIMotor]s. *)
Theorem session_calls_balance (u i d a : Z) (dv : Device) (fuel : nat) (ops : list Op) :
  match run fuel ops (KinectController_new u i d a dv) with
  | Returns s =>
      exists ext,
        trace (dev s) = ext ++ trace dv /\
        calls_of ContextInit ext = S (calls_of ContextShutdown ext) /\
        (calls_of CreateNUIMotor ext <= S (calls_of DestroyNUIMotor ext))%nat /\
        trace (dev (KinectController_destroy s))
        = [DestroyNUIMotor; ContextShutdown] ++ ext ++ trace dv /\
        calls_of ContextInit ([DestroyNUIMotor; ContextShutdown] ++ ext)
        = calls_of ContextShutdown ([DestroyNUIMotor; ContextShutdown] ++ ext) /\
        (calls_of CreateNUIMotor ([DestroyNUIMotor; ContextShutdown] ++ ext)
         <= calls_of DestroyNUIMotor ([DestroyNUIMotor; ContextShutdown] ++ ext))%nat
  | _ => True
  end.
Proof.
  destruct (run fuel ops (KinectController_new u i d a dv)) as [s| |] eqn:E; [|exact I..].
  destruct (KinectController_new_stepped u i d a dv)
    as (k0 & e0 & Ht0 & _ & _ & Hi0 & Hs0 & Hd0 & Hc0).
  destruct (run_tidy _ a _ _ _ E (KinectController_new_sound u i d a dv))
    as (k1 & e1 & (Ht1 & _) & _ & Hi1 & Hc1).
  destruct (kinectCleanupExit_stepped s) as (Ht2 & _).
  exists (e1 ++ e0). unfold KinectController_destroy.
  rewrite Ht2, Ht1, Ht0, !calls_of_app, Hi0, Hs0, Hd0, <- !app_assoc.
  split; [reflexivity|]. split; [lia|]. split; [lia|]. split; [reflexivity|].
  change (calls_of ContextInit [DestroyNUIMotor; ContextShutdown]) with 0%nat.
  change (calls_of ContextShutdown [DestroyNUIMotor; ContextShutdown]) with 1%nat.
  change (calls_of CreateNUIMotor [DestroyNUIMotor; ContextShutdown]) with 0%nat.
  change (calls_of DestroyNUIMotor [DestroyNUIMotor; ContextShutdown]) with 1%nat.
  split; lia.
Qed.



(** X9: [setDepth] composes additively and can be undone.  When the
    sums stay within the range of [int], two calls in a row are one call
    with the sum of the deltas, and [setDepth(d)] followed by
    [setDepth(-d)] leaves the controller exactly as it was. *)
Theorem setDepth_composes (d1 d2 : Z) (s : KinectController) :
  - 2 ^ 31 <= depthThresh s < 2 ^ 31 ->
  - 2 ^ 31 <= depthThresh s + d1 < 2 ^ 31 ->
  - 2 ^ 31 <= depthThresh s + d1 + d2 < 2 ^ 31 ->
  setDepth d2 (setDepth d1 s) = setDepth (d1 + d2) s /\
  depthThresh (setDepth d2 (setDepth d1 s)) = depthThresh s + d1 + d2 /\
  setDepth (- d1) (setDepth d1 s) = s.
Proof.
  intros H0 H1 H2.
  destruct s as [dv rc mu mi it dt cb dm um ia na].
  unfold setDepth, set_depthThresh. cbn in *.
  rewrite (wrap32_small (dt + d1)) by lia.
  rewrite (wrap32_small (dt + d1 + d2)) by lia.
  rewrite (wrap32_small (dt + (d1 + d2))) by lia.
  rewrite (wrap32_small (dt + d1 + - d1)) by lia.
  split; [f_equal; lia|]. split; [reflexivity|]. f_equal. lia.
Qed.

(** X9 on the default threshold: 1000 up and 1000 down again. *)
Lemma setDepth_composes_witness :
  depthThresh (setDepth 500 (setDepth 1000
    (KinectController_new 6 10000 6000 10000 (steady_device 3000 2)))) = 6000 + 1000 + 500 /\
  setDepth (- 1000) (setDepth 1000
    (KinectController_new 6 10000 6000 10000 (steady_device 3000 2)))
  = KinectController_new 6 10000 6000 10000 (steady_device 3000 2).
Proof.
  destruct (setDepth_composes 1000 500
              (KinectController_new 6 10000 6000 10000 (steady_device 3000 2)))
    as (_ & H2 & H3).
  - vm_compute. split; [discriminate|reflexivity].
  - vm_compute. split; [discriminate|reflexivity].
  - vm_compute. split; [discriminate|reflexivity].
  - split; [|exact H3].
    rewrite H2. vm_compute. reflexivity.
Defined.

(** ** The buffers the caller reads *)

(** X10: [getDepthMat] and [getUsersMat] always hand out 8-bit images.
    Right after construction both are [Mat::zeros(480, 640)]; after any
    sequence of calls of [update], [reset], [setDepth], [setMotorAngle]
    and [resetMotorAngle] every element of both pixel arrays lies in
    [0, 255], whatever depths and labels the sensor delivered and whatever
    scale factor is cached. *)
Theorem buffers_hold_bytes (u i d a : Z) (dv : Device) (fuel : nat) (ops : list Op) :
  (getDepthMat (KinectController_new u i d a dv) = Mat_zeros 480 640 /\
   getUsersMat (KinectController_new u i d a dv) = Mat_zeros 480 640) /\
  match run fuel ops (KinectController_new u i d a dv) with
  | Returns s =>
      Forall (fun v => 0 <= v < 256) (data (getDepthMat s)) /\
      Forall (fun v => 0 <= v < 256) (data (getUsersMat s))
  | _ => True
  end.
Proof.
  destruct (KinectController_new_facts u i d a dv)
    as (_ & _ & _ & _ & _ & _ & _ & _ & Hd & Hu & _).
  unfold getDepthMat, getUsersMat. split; [split; assumption|].
  destruct (run fuel ops (KinectController_new u i d a dv)) as [s| |] eqn:E; [|exact I..].
  apply (run_bytes _ _ _ _ E). rewrite Hd, Hu. split; apply bytes_zeros.
Qed.

(** ** What [update] reports and consumes *)

(** X11: a call of [update] that finds no reset due returns exactly
    the status of [WaitOneUpdateAll], and the status member holds it; the
    status of the later [GetUsers] call never reaches the caller.  When
    the wait succeeds, [GetUsers] is the last device call, and the count
    it is passed is [maxUsers] narrowed to [XnUInt16], that is
    [maxUsers mod 65536]. *)
Theorem update_returns_wait_status (fuel : nat) (s : KinectController) :
  iterations s <= maxIterate s -> 0 <= maxUsers s ->
  exists s', update (S fuel) s = Returns (next_status s, s') /\
             xnRetVal s' = next_status s /\
             (next_status s = XN_STATUS_OK ->
                head (trace (dev s')) = Some (GetUsers (maxUsers s mod 2 ^ 16)) /\
                calls (dev s') = (2 + calls (dev s))%nat).
Proof.
  intros Hit Hu. rewrite update_no_reset by assumption.
  destruct (acquire_and_process_cases s)
    as [(s' & E & Hrc & _ & Hdone)|[(s' & E & Hrc & Hfail)|(_ & _ & Hneg)]]; [| |lia].
  - rewrite Hrc. exists s'. split; [exact E|].
    destruct Hdone as (_ & Hx & _). split; [exact Hx|]. intros _.
    destruct (acquire_and_process_stepped _ _ _ E) as [[_ (Ht & Hc & _)]|[Hne _]];
      [|contradiction].
    rewrite Ht, Hc. split; reflexivity.
  - exists s'. split; [exact E|].
    destruct Hfail as (_ & Hx & _). split; [exact Hx|]. intros Hok. contradiction.
Qed.

(** X11 on a device whose [GetUsers] fails in the first cycle (the
    ninth status it gives): [update] returns [XN_STATUS_OK]; and at a
    controller constructed with a user count of 70000: [GetUsers] is
    passed 4464. *)
Lemma update_returns_wait_status_witness :
  (exists s',
     update 1 (KinectController_new 6 10000 6000 10000 (failing_device 8 1))
       = Returns (XN_STATUS_OK, s') /\
     status_ahead 1 (KinectController_new 6 10000 6000 10000 (failing_device 8 1)) = 1) /\
  (exists s',
     update 1 (KinectController_new 70000 10000 6000 10000 (steady_device 3000 2))
       = Returns (XN_STATUS_OK, s') /\
     head (trace (dev s')) = Some (GetUsers 4464)).
Proof.
  split.
  - destruct (update_returns_wait_status 0
                (KinectController_new 6 10000 6000 10000 (failing_device 8 1)))
      as (s' & E & _).
    + apply Z.leb_le. vm_compute. reflexivity.
    + apply Z.leb_le. vm_compute. reflexivity.
    + exists s'. split; [exact E|]. vm_compute. reflexivity.
  - destruct (update_returns_wait_status 0
                (KinectController_new 70000 10000 6000 10000 (steady_device 3000 2)))
      as (s' & E & _ & Hcalls).
    + apply Z.leb_le. vm_compute. reflexivity.
    + apply Z.leb_le. vm_compute. reflexivity.
    + exists s'. split; [exact E|].
      destruct Hcalls as [Hhead _]; [vm_compute; reflexivity|].
      rewrite Hhead. vm_compute. reflexivity.
Defined.



(** X13: a negative user count makes [update] leave by an exception.
    With [maxUsers < 0] and no reset due, a call whose wait for a frame
    succeeds does not return (the allocation [new XnUserID[maxUsers]]
    throws), while a call whose wait fails returns the error status as
    usual, before the allocation. *)
Theorem update_negative_users_throws (fuel : nat) (s : KinectController) :
  maxUsers s < 0 -> iterations s <= maxIterate s ->
  (next_status s = XN_STATUS_OK -> update (S fuel) s = Throws) /\
  (next_status s <> XN_STATUS_OK ->
     exists s', update (S fuel) s = Returns (next_status s, s')).
Proof.
  intros Hu Hit. rewrite update_no_reset by assumption. split.
  - intros Hrc. apply acquire_and_process_throws; assumption.
  - intros Hrc. destruct (acquire_and_process_failed s Hrc) as (s' & E & _). eauto.
Qed.

(** X13 at a controller constructed with a user count of -1. *)
Lemma update_negative_users_throws_witness :
  update 1 (KinectController_new (-1) 10000 6000 10000 (steady_device 3000 2)) = Throws.
Proof.
  destruct (update_negative_users_throws 0
              (KinectController_new (-1) 10000 6000 10000 (steady_device 3000 2)))
    as (Hthrow & _).
  - apply Z.ltb_lt. vm_compute. reflexivity.
  - apply Z.leb_le. vm_compute. reflexivity.
  - apply Hthrow. vm_compute. reflexivity.
Defined.
